(** * mbtest.imposters.responses: a shallow embedding

    The module [mbtest/imposters/responses.py] maps response objects of a
    Mountebank imposter ([Response], [TcpResponse], [Proxy],
    [PredicateGenerator], [InjectionResponse]) to and from JSON structures.
    This development embeds the Python code as Rocq functions over a model of
    the Python values that occur in such structures and proves properties of
    serialisation ([as_structure]), parsing ([from_structure]) and of the
    dispatch in [BaseResponse.from_structure]. *)

From Stdlib Require Import String Ascii List ZArith Bool Lia.
From Stdlib Require Import Strings.Byte.
Import ListNotations.
Local Open Scope string_scope.
Local Open Scope list_scope.

Set Implicit Arguments.
Set Warnings "-register-all".

(** ** Python values

    A [JsonStructure] holds [None], booleans, integers, strings, lists and
    dicts.  A dict is an association list in insertion order, as Python dicts
    are (iteration over a dict follows that order); a dict literal of the
    source is the list of its items.  Numbers with a fractional part are not
    part of the model. *)

Inductive value : Type :=
| VNone
| VBool (b : bool)
| VInt (n : Z)
| VStr (s : string)
| VList (l : list value)
| VDict (d : list (string * value)).

Definition dict : Type := list (string * value).

(** Exceptions raised by the operations below; [KeyError] carries the key. *)
Inductive exn : Type :=
| TypeError
| KeyError (k : value)
| ValueError
| AttributeError
| NotImplementedError.

Inductive result (A : Type) : Type :=
| Ok (a : A)
| Err (e : exn).

Arguments Ok {A} a.
Arguments Err {A} e.

Definition bind {A B : Type} (r : result A) (k : A -> result B) : result B :=
  match r with
  | Ok a => k a
  | Err e => Err e
  end.

Definition fmap {A B : Type} (f : A -> B) (r : result A) : result B :=
  bind r (fun a => Ok (f a)).

Declare Scope result_scope.
Delimit Scope result_scope with result.
Notation "x <- r ;; k" := (bind r (fun x => k))
  (at level 61, r at next level, right associativity) : result_scope.
Local Open Scope result_scope.

(** [[f(x) for x in l]] where [f] may raise: the first exception wins. *)
Fixpoint mapM {A B : Type} (f : A -> result B) (l : list A) : result (list B) :=
  match l with
  | [] => Ok []
  | a :: l' => b <- f a ;; bs <- mapM f l' ;; Ok (b :: bs)
  end.

Definition is_ok {A : Type} (r : result A) : bool :=
  match r with Ok _ => true | Err _ => false end.

(** *** Dicts *)

(** [d.get(k)] as an option: the first (and, in a dict, only) item of key [k]. *)
Fixpoint dict_get (k : string) (d : dict) : option value :=
  match d with
  | [] => None
  | (k', v) :: d' => if String.eqb k k' then Some v else dict_get k d'
  end.

(** [k in d] *)
Definition dict_in (k : string) (d : dict) : bool :=
  match dict_get k d with Some _ => true | None => false end.

(** [d[k] = v]: an existing key keeps its place, a new one goes last. *)
Fixpoint dict_set (k : string) (v : value) (d : dict) : dict :=
  match d with
  | [] => [(k, v)]
  | (k', v') :: d' =>
      if String.eqb k k' then (k, v) :: d' else (k', v') :: dict_set k v d'
  end.

Definition dict_keys (d : dict) : list string := map fst d.

(** [d.get(k, default)] on a dict. *)
Definition dict_get_or (k : string) (d : dict) (default : value) : value :=
  match dict_get k d with
  | Some v => v
  | None => default
  end.

(** *** Operators of the language on values *)

(** Truth value of an object in a condition ([if value:]). *)
Definition truthy (v : value) : bool :=
  match v with
  | VNone => false
  | VBool b => b
  | VInt n => negb (Z.eqb n 0)
  | VStr s => negb (String.eqb s "")
  | VList l => match l with [] => false | _ => true end
  | VDict d => match d with [] => false | _ => true end
  end.

(** [needle in hay] on strings: [needle] occurs in [hay]. *)
Fixpoint str_contains (needle hay : string) : bool :=
  String.prefix needle hay
  || match hay with
     | EmptyString => false
     | String _ hay' => str_contains needle hay'
     end.

Definition is_str (k : string) (v : value) : bool :=
  match v with VStr s => String.eqb s k | _ => false end.

(** ["k" in container] for a string literal ["k"]: key membership on a dict,
    element membership on a list, substring on a string; [None], booleans and
    integers are not iterable. *)
Definition py_in (k : string) (container : value) : result bool :=
  match container with
  | VDict d => Ok (dict_in k d)
  | VList l => Ok (existsb (is_str k) l)
  | VStr s => Ok (str_contains k s)
  | VNone | VBool _ | VInt _ => Err TypeError
  end.

(** [container["k"]] for a string literal ["k"]: only a dict can be indexed by a
    string. *)
Definition py_getitem (container : value) (k : string) : result value :=
  match container with
  | VDict d =>
      match dict_get k d with
      | Some v => Ok v
      | None => Err (KeyError (VStr k))
      end
  | _ => Err TypeError
  end.

(** [container.get("k", default)]: a method of dicts only. *)
Definition py_get (container : value) (k : string) (default : value) : result value :=
  match container with
  | VDict d => Ok (dict_get_or k d default)
  | _ => Err AttributeError
  end.

Fixpoint str_chars (s : string) : list value :=
  match s with
  | EmptyString => []
  | String c s' => VStr (String c EmptyString) :: str_chars s'
  end.

(** [for x in container]: the elements of a list, the keys of a dict, the
    characters of a string. *)
Definition py_iter (container : value) : result (list value) :=
  match container with
  | VList l => Ok l
  | VDict d => Ok (map VStr (dict_keys d))
  | VStr s => Ok (str_chars s)
  | VNone | VBool _ | VInt _ => Err TypeError
  end.

(** ** mbtest.imposters.base.JsonSerializable *)

(** The abstract interface: [as_structure] and the static [from_structure]. *)
Class JsonSerializable (A : Type) : Type := {
  as_structure : A -> result value;
  from_structure : value -> result A
}.

(** Modelled from the spec: the helper [JsonSerializable._add_if_true] of
    mbtest/imposters/base.py, "add key only if value is truthy". *)
Definition _add_if_true (dictionary : dict) (key : string) (v : value) : dict :=
  if truthy v then dict_set key v dictionary else dictionary.

(** Modelled from the spec: the helper [JsonSerializable._set_if_in_dict] of
    mbtest/imposters/base.py, by which the behaviors block "optionally
    populates" an attribute: the attribute is set when the key is in the
    dictionary.  [set] is the assignment to the attribute. *)
Definition _set_if_in_dict {A : Type} (self : A) (dictionary : value)
    (key : string) (set : value -> A -> A) : result A :=
  present <- py_in key dictionary ;;
  if (present : bool) then v <- py_getitem dictionary key ;; Ok (set v self)
  else Ok self.

(** [a and b] in a condition: [b] is evaluated only when [a] holds. *)
Definition py_and (a b : result bool) : result bool :=
  x <- a ;; if (x : bool) then b else Ok false.

(** ** What the module imports

    [furl] (the URL library), [xml.etree.ElementTree], the decoding of
    [bytes], the behaviors [Copy] and [Lookup] (mbtest/imposters/behaviors.py)
    and the enumeration [Predicate.Operator] (mbtest/imposters/predicates.py)
    are used by the module and defined elsewhere: they are taken as
    parameters. *)
Class Externals : Type := {
  (** [furl(x)] and [f.url] *)
  furl : Type;
  furl_new : value -> result furl;
  furl_url : furl -> string;
  (** [et.Element] and [et.tostring(e, encoding="unicode")] *)
  Element : Type;
  et_tostring : Element -> string;
  (** [b.decode("utf-8")] *)
  bytes_decode : list byte -> result string;
  (** The behaviors, each a [JsonSerializable]. *)
  Copy : Type;
  Copy_json : JsonSerializable Copy;
  Lookup : Type;
  Lookup_json : JsonSerializable Lookup;
  (** [Predicate.Operator]: its members by name, [EQUALS] among them. *)
  Operator : Type;
  EQUALS : Operator;
  Operator_members : list (string * Operator)
}.

#[global] Existing Instance Copy_json.
#[global] Existing Instance Lookup_json.

Fixpoint assoc {A : Type} (k : string) (l : list (string * A)) : option A :=
  match l with
  | [] => None
  | (k', a) :: l' => if String.eqb k k' then Some a else assoc k l'
  end.

(** [Predicate.Operator[name]]: the member of that name; a name that is not
    one raises [KeyError], an unhashable one [TypeError]. *)
Definition Operator_getitem {E : Externals} (name : value) : result Operator :=
  match name with
  | VStr n =>
      match assoc n Operator_members with
      | Some o => Ok o
      | None => Err (KeyError name)
      end
  | VList _ | VDict _ => Err TypeError
  | VNone | VBool _ | VInt _ => Err (KeyError name)
  end.

(** The argument of a constructor that takes one behavior, a sequence of
    them, or [None]. *)
Inductive one_or_seq (A : Type) : Type :=
| ArgNone
| ArgOne (a : A)
| ArgSeq (l : list A).

Arguments ArgNone {A}.
Arguments ArgOne {A} a.
Arguments ArgSeq {A} l.

(** [x if isinstance(x, Sequence) else [x] if x else None]; a behavior is an
    object, and truthy. *)
Definition seq_of_arg {A : Type} (x : one_or_seq A) : option (list A) :=
  match x with
  | ArgSeq l => Some l
  | ArgOne a => Some [a]
  | ArgNone => None
  end.

(** ** class Response *)
Module Response.

Inductive Mode : Type := TEXT | BINARY.

(** [mode.value] *)
Definition Mode_value (m : Mode) : string :=
  match m with
  | TEXT => "text"
  | BINARY => "binary"
  end.

(** [Response.Mode(v)]: the member of value [v], or [ValueError]. *)
Definition Mode_of_value (v : value) : result Mode :=
  match v with
  | VStr s =>
      if String.eqb s "text" then Ok TEXT
      else if String.eqb s "binary" then Ok BINARY
      else Err ValueError
  | _ => Err ValueError
  end.

(** The [mode] argument of the constructor: a member, or a raw value. *)
Inductive mode_arg : Type :=
| ModeMember (m : Mode)
| ModeRaw (v : value).

Section WithExternals.
Context {E : Externals}.

(** What [self._body] holds: an XML element, bytes, or another value. *)
Inductive body_repr : Type :=
| BodyElement (e : Element)
| BodyBytes (b : list byte)
| BodyOther (v : value).

Record t : Type := {
  _body : body_repr;
  status_code : value;
  wait : value;
  repeat : value;
  headers : value;
  mode : Mode;
  copy : option (list Copy);
  decorate : value;
  lookup : option (list Lookup);
  shell_transform : value
}.

Definition set__body (x : body_repr) (r : t) : t :=
  {| _body := x; status_code := status_code r; wait := wait r;
     repeat := repeat r; headers := headers r; mode := mode r;
     copy := copy r; decorate := decorate r; lookup := lookup r;
     shell_transform := shell_transform r |}.
Definition set_status_code (x : value) (r : t) : t :=
  {| _body := _body r; status_code := x; wait := wait r;
     repeat := repeat r; headers := headers r; mode := mode r;
     copy := copy r; decorate := decorate r; lookup := lookup r;
     shell_transform := shell_transform r |}.
Definition set_wait (x : value) (r : t) : t :=
  {| _body := _body r; status_code := status_code r; wait := x;
     repeat := repeat r; headers := headers r; mode := mode r;
     copy := copy r; decorate := decorate r; lookup := lookup r;
     shell_transform := shell_transform r |}.
Definition set_repeat (x : value) (r : t) : t :=
  {| _body := _body r; status_code := status_code r; wait := wait r;
     repeat := x; headers := headers r; mode := mode r;
     copy := copy r; decorate := decorate r; lookup := lookup r;
     shell_transform := shell_transform r |}.
Definition set_headers (x : value) (r : t) : t :=
  {| _body := _body r; status_code := status_code r; wait := wait r;
     repeat := repeat r; headers := x; mode := mode r;
     copy := copy r; decorate := decorate r; lookup := lookup r;
     shell_transform := shell_transform r |}.
Definition set_mode (x : Mode) (r : t) : t :=
  {| _body := _body r; status_code := status_code r; wait := wait r;
     repeat := repeat r; headers := headers r; mode := x;
     copy := copy r; decorate := decorate r; lookup := lookup r;
     shell_transform := shell_transform r |}.
Definition set_copy (x : option (list Copy)) (r : t) : t :=
  {| _body := _body r; status_code := status_code r; wait := wait r;
     repeat := repeat r; headers := headers r; mode := mode r;
     copy := x; decorate := decorate r; lookup := lookup r;
     shell_transform := shell_transform r |}.
Definition set_decorate (x : value) (r : t) : t :=
  {| _body := _body r; status_code := status_code r; wait := wait r;
     repeat := repeat r; headers := headers r; mode := mode r;
     copy := copy r; decorate := x; lookup := lookup r;
     shell_transform := shell_transform r |}.
Definition set_lookup (x : option (list Lookup)) (r : t) : t :=
  {| _body := _body r; status_code := status_code r; wait := wait r;
     repeat := repeat r; headers := headers r; mode := mode r;
     copy := copy r; decorate := decorate r; lookup := x;
     shell_transform := shell_transform r |}.
Definition set_shell_transform (x : value) (r : t) : t :=
  {| _body := _body r; status_code := status_code r; wait := wait r;
     repeat := repeat r; headers := headers r; mode := mode r;
     copy := copy r; decorate := decorate r; lookup := lookup r;
     shell_transform := x |}.

(** The parameters of [__init__]. *)
Record args : Type := {
  arg_body : body_repr;
  arg_status_code : value;
  arg_wait : value;
  arg_repeat : value;
  arg_headers : value;
  arg_mode : mode_arg;
  arg_copy : one_or_seq Copy;
  arg_decorate : value;
  arg_lookup : one_or_seq Lookup;
  arg_shell_transform : value
}.

(** The defaults of the signature: [Response()]. *)
Definition defaults : args :=
  {| arg_body := BodyOther (VStr ""); arg_status_code := VInt 200;
     arg_wait := VNone; arg_repeat := VNone; arg_headers := VNone;
     arg_mode := ModeRaw VNone; arg_copy := ArgNone;
     arg_decorate := VNone; arg_lookup := ArgNone;
     arg_shell_transform := VNone |}.

Definition __init__ (a : args) : result t :=
  m <- match arg_mode a with
       | ModeMember m => Ok m
       | ModeRaw v => if truthy v then Mode_of_value v else Ok TEXT
       end ;;
  Ok {| _body := arg_body a; status_code := arg_status_code a;
        wait := arg_wait a; repeat := arg_repeat a;
        headers := arg_headers a; mode := m;
        copy := seq_of_arg (arg_copy a); decorate := arg_decorate a;
        lookup := seq_of_arg (arg_lookup a);
        shell_transform := arg_shell_transform a |}.

(** The property [body]. *)
Definition body (self : t) : result value :=
  match _body self with
  | BodyElement e => Ok (VStr (et_tostring e))
  | BodyBytes b => s <- bytes_decode b ;; Ok (VStr s)
  | BodyOther v => Ok v
  end.

Definition _is_structure (self : t) : result dict :=
  let is_structure :=
    [("statusCode", status_code self); ("_mode", VStr (Mode_value (mode self)))] in
  b <- body self ;;
  let is_structure := _add_if_true is_structure "body" b in
  let is_structure := _add_if_true is_structure "headers" (headers self) in
  Ok is_structure.

(** [if xs: behaviors[key] = [x.as_structure() for x in xs]] *)
Definition add_serialized {A : Type} `{JsonSerializable A}
    (behaviors : dict) (key : string) (xs : option (list A)) : result dict :=
  match xs with
  | None | Some [] => Ok behaviors
  | Some l => ss <- mapM as_structure l ;; Ok (dict_set key (VList ss) behaviors)
  end.

Definition _behaviors_structure (self : t) : result dict :=
  let behaviors := [] in
  let behaviors := _add_if_true behaviors "wait" (wait self) in
  let behaviors := _add_if_true behaviors "repeat" (repeat self) in
  let behaviors := _add_if_true behaviors "decorate" (decorate self) in
  let behaviors := _add_if_true behaviors "shellTransform" (shell_transform self) in
  behaviors <- add_serialized behaviors "copy" (copy self) ;;
  behaviors <- add_serialized behaviors "lookup" (lookup self) ;;
  Ok behaviors.

Definition as_structure (self : t) : result value :=
  i <- _is_structure self ;;
  b <- _behaviors_structure self ;;
  Ok (VDict [("is", VDict i); ("_behaviors", VDict b)]).

Definition _fields_from_structure (self : t) (structure : value) : result t :=
  inner <- py_getitem structure "is" ;;
  has_body <- py_in "body" inner ;;
  self <- (if (has_body : bool)
           then v <- py_getitem inner "body" ;; Ok (set__body (BodyOther v) self)
           else Ok self) ;;
  m <- py_getitem inner "_mode" ;;
  m <- Mode_of_value m ;;
  let self := set_mode m self in
  has_headers <- py_in "headers" inner ;;
  self <- (if (has_headers : bool)
           then v <- py_getitem inner "headers" ;; Ok (set_headers v self)
           else Ok self) ;;
  has_status <- py_in "statusCode" inner ;;
  if (has_status : bool)
  then v <- py_getitem inner "statusCode" ;; Ok (set_status_code v self)
  else Ok self.

(** [if key in behaviors: self.x = [A.from_structure(c) for c in behaviors[key]]] *)
Definition set_parsed {A : Type} `{JsonSerializable A}
    (self : t) (behaviors : value) (key : string)
    (set : option (list A) -> t -> t) : result t :=
  present <- py_in key behaviors ;;
  if (present : bool)
  then l <- py_getitem behaviors key ;;
       items <- py_iter l ;;
       xs <- mapM from_structure items ;;
       Ok (set (Some xs) self)
  else Ok self.

Definition from_structure (structure : value) : result t :=
  response <- __init__ defaults ;;
  response <- _fields_from_structure response structure ;;
  behaviors <- py_get structure "_behaviors" (VDict []) ;;
  response <- _set_if_in_dict response behaviors "wait" set_wait ;;
  response <- _set_if_in_dict response behaviors "repeat" set_repeat ;;
  response <- _set_if_in_dict response behaviors "decorate" set_decorate ;;
  response <- _set_if_in_dict response behaviors "shellTransform" set_shell_transform ;;
  response <- set_parsed response behaviors "copy" set_copy ;;
  response <- set_parsed response behaviors "lookup" set_lookup ;;
  Ok response.

End WithExternals.
End Response.

(** ** class TcpResponse *)
Module TcpResponse.

Record t : Type := { data : value }.

Definition __init__ (data : value) : t := {| data := data |}.

Definition as_structure (self : t) : value :=
  VDict [("is", VDict [("data", data self)])].

Definition from_structure (structure : value) : result t :=
  inner <- py_getitem structure "is" ;;
  d <- py_getitem inner "data" ;;
  Ok (__init__ d).

End TcpResponse.

(** ** class PredicateGenerator *)
Module PredicateGenerator.
Section WithExternals.
Context {E : Externals}.

Record t : Type := {
  path : value;
  query : value;
  operator : Operator;
  case_sensitive : value
}.

Definition __init__ (path query : value) (operator : Operator)
    (case_sensitive : value) : t :=
  {| path := path; query := query; operator := operator;
     case_sensitive := case_sensitive |}.

(** [PredicateGenerator()]: every parameter at its default. *)
Definition default : t := __init__ (VBool false) (VBool false) EQUALS (VBool true).

Definition as_structure (self : t) : value :=
  let matches := [] in
  let matches := _add_if_true matches "path" (path self) in
  let matches := _add_if_true matches "query" (query self) in
  let predicate :=
    [("caseSensitive", case_sensitive self); ("matches", VDict matches)] in
  VDict predicate.

Definition from_structure (structure : value) : result t :=
  m <- py_getitem structure "matches" ;;
  path <- py_get m "path" VNone ;;
  m <- py_getitem structure "matches" ;;
  query <- py_get m "query" VNone ;;
  has_operator <- py_in "operator" structure ;;
  operator <- (if (has_operator : bool)
               then name <- py_getitem structure "operator" ;; Operator_getitem name
               else Ok EQUALS) ;;
  case_sensitive <- py_get structure "caseSensitive" (VBool false) ;;
  Ok (__init__ path query operator case_sensitive).

End WithExternals.
End PredicateGenerator.

(** ** class Proxy *)
Module Proxy.

Inductive Mode : Type := ONCE | ALWAYS | TRANSPARENT.

Definition Mode_value (m : Mode) : string :=
  match m with
  | ONCE => "proxyOnce"
  | ALWAYS => "proxyAlways"
  | TRANSPARENT => "proxyTransparent"
  end.

(** [Proxy.Mode(v)]: the member of value [v], or [ValueError]. *)
Definition Mode_of_value (v : value) : result Mode :=
  match v with
  | VStr s =>
      if String.eqb s "proxyOnce" then Ok ONCE
      else if String.eqb s "proxyAlways" then Ok ALWAYS
      else if String.eqb s "proxyTransparent" then Ok TRANSPARENT
      else Err ValueError
  | _ => Err ValueError
  end.

Section WithExternals.
Context {E : Externals}.

(** What [self.to] holds: a [furl], or another value (a string). *)
Inductive target : Type :=
| ToFurl (f : furl)
| ToOther (v : value).

(** [predicate_generators] is an attribute like any other and could hold
    [None]; the constructor is what keeps it a list. *)
Record t : Type := {
  to : target;
  wait : value;
  inject_headers : value;
  mode : Mode;
  predicate_generators : option (list PredicateGenerator.t)
}.

Definition set_wait (x : value) (p : t) : t :=
  {| to := to p; wait := x; inject_headers := inject_headers p;
     mode := mode p; predicate_generators := predicate_generators p |}.

(** The parameters of [__init__]; [arg_predicate_generators] is [None]
    when the argument is [None] or left out. *)
Record args : Type := {
  arg_to : target;
  arg_wait : value;
  arg_inject_headers : value;
  arg_mode : Mode;
  arg_predicate_generators : option (list PredicateGenerator.t)
}.

(** The defaults of the signature: [Proxy(to=x)]. *)
Definition defaults (x : target) : args :=
  {| arg_to := x; arg_wait := VNone; arg_inject_headers := VNone;
     arg_mode := ONCE; arg_predicate_generators := None |}.

Definition __init__ (a : args) : t :=
  {| to := arg_to a; wait := arg_wait a;
     inject_headers := arg_inject_headers a; mode := arg_mode a;
     predicate_generators :=
       match arg_predicate_generators a with
       | Some pgs => Some pgs
       | None => Some []
       end |}.

Definition as_structure (self : t) : result value :=
  let proxy :=
    [("to", match to self with
            | ToFurl f => VStr (furl_url f)
            | ToOther v => v
            end);
     ("mode", VStr (Mode_value (mode self)))] in
  let proxy := _add_if_true proxy "injectHeaders" (inject_headers self) in
  pgs <- match predicate_generators self with
         | Some pgs => Ok (map PredicateGenerator.as_structure pgs)
         | None => Err TypeError
         end ;;
  let proxy := _add_if_true proxy "predicateGenerators" (VList pgs) in
  let response := [("proxy", VDict proxy)] in
  let response :=
    if truthy (wait self)
    then dict_set "_behaviors" (VDict [("wait", wait self)]) response
    else response in
  Ok (VDict response).

Definition from_structure (structure : value) : result t :=
  proxy_structure <- py_getitem structure "proxy" ;;
  u <- py_getitem proxy_structure "to" ;;
  f <- furl_new u ;;
  has_headers <- py_in "injectHeaders" proxy_structure ;;
  inject_headers <- (if (has_headers : bool)
                     then py_getitem proxy_structure "injectHeaders"
                     else Ok VNone) ;;
  m <- py_getitem proxy_structure "mode" ;;
  m <- Mode_of_value m ;;
  has_pgs <- py_in "predicateGenerators" proxy_structure ;;
  pgs <- (if (has_pgs : bool)
          then l <- py_getitem proxy_structure "predicateGenerators" ;;
               items <- py_iter l ;;
               pgs <- mapM PredicateGenerator.from_structure items ;;
               Ok (Some pgs)
          else Ok None) ;;
  let proxy :=
    __init__ {| arg_to := ToFurl f; arg_wait := VNone;
                arg_inject_headers := inject_headers; arg_mode := m;
                arg_predicate_generators := pgs |} in
  behaviors <- py_get structure "_behaviors" (VDict []) ;;
  wait <- py_get behaviors "wait" VNone ;;
  Ok (if truthy wait then set_wait wait proxy else proxy).

End WithExternals.
End Proxy.

(** ** class InjectionResponse *)
Module InjectionResponse.

Record t : Type := { inject : value }.

Definition __init__ (inject : value) : t := {| inject := inject |}.

Definition as_structure (self : t) : value :=
  VDict [("inject", inject self)].

Definition from_structure (structure : value) : result t :=
  i <- py_getitem structure "inject" ;;
  Ok (__init__ i).

End InjectionResponse.

(** ** class BaseResponse *)
Module BaseResponse.
Section WithExternals.
Context {E : Externals}.

(** The subclasses of [BaseResponse]. *)
Inductive t : Type :=
| IsResponse (r : Response.t)
| IsTcpResponse (r : TcpResponse.t)
| IsProxy (r : Proxy.t)
| IsInjectionResponse (r : InjectionResponse.t).

Definition from_structure (structure : value) : result t :=
  c <- py_and (py_in "is" structure) (py_in "_behaviors" structure) ;;
  if (c : bool) then fmap IsResponse (Response.from_structure structure)
  else
  c <- py_and (py_in "is" structure)
              (inner <- py_getitem structure "is" ;; py_in "data" inner) ;;
  if (c : bool) then fmap IsTcpResponse (TcpResponse.from_structure structure)
  else
  c <- py_in "proxy" structure ;;
  if (c : bool) then fmap IsProxy (Proxy.from_structure structure)
  else
  c <- py_in "inject" structure ;;
  if (c : bool) then fmap IsInjectionResponse (InjectionResponse.from_structure structure)
  else Err NotImplementedError.

End WithExternals.
End BaseResponse.

(** The classes of the module as instances of the interface. *)
#[global] Instance Response_json {E : Externals} : JsonSerializable Response.t :=
  {| as_structure := Response.as_structure;
     from_structure := Response.from_structure |}.

#[global] Instance TcpResponse_json : JsonSerializable TcpResponse.t :=
  {| as_structure := fun x => Ok (TcpResponse.as_structure x);
     from_structure := TcpResponse.from_structure |}.

#[global] Instance PredicateGenerator_json {E : Externals} :
    JsonSerializable PredicateGenerator.t :=
  {| as_structure := fun x => Ok (PredicateGenerator.as_structure x);
     from_structure := PredicateGenerator.from_structure |}.

#[global] Instance Proxy_json {E : Externals} : JsonSerializable Proxy.t :=
  {| as_structure := Proxy.as_structure;
     from_structure := Proxy.from_structure |}.

#[global] Instance InjectionResponse_json : JsonSerializable InjectionResponse.t :=
  {| as_structure := fun x => Ok (InjectionResponse.as_structure x);
     from_structure := InjectionResponse.from_structure |}.

(** ** An instance of the parameters

    A small implementation of what the module imports, on which the
    definitions above evaluate: a URL is its own text, an XML element its
    rendering, bytes decode when they are 7-bit, a behavior is its own
    structure, and the operators are [EQUALS] and [CONTAINS]. *)
Module Sample.

Inductive operator : Type := OpEquals | OpContains.

Definition url_of (v : value) : result string :=
  match v with
  | VStr s => Ok s
  | _ => Err TypeError
  end.

Definition is_ascii (b : byte) : bool := Nat.ltb (Byte.to_nat b) 128.

Definition decode_ascii (b : list byte) : result string :=
  if forallb is_ascii b then Ok (string_of_list_byte b) else Err ValueError.

Definition behavior_json : JsonSerializable value :=
  {| as_structure := fun v => Ok v; from_structure := fun v => Ok v |}.

Definition externals : Externals :=
  {| furl := string; furl_new := url_of; furl_url := fun f => f;
     Element := string; et_tostring := fun e => e;
     bytes_decode := decode_ascii;
     Copy := value; Copy_json := behavior_json;
     Lookup := value; Lookup_json := behavior_json;
     Operator := operator; EQUALS := OpEquals;
     Operator_members := [("EQUALS", OpEquals); ("CONTAINS", OpContains)] |}.

End Sample.

(** ** Predicates of the statements *)

(** An optional field that serialisation keeps: unset ([None]), or truthy. *)
Definition unset_or_truthy (v : value) : bool :=
  match v with
  | VNone => true
  | _ => truthy v
  end.

(** The ways the module builds a [Proxy]: its constructor, and
    [Proxy.from_structure]. *)
Inductive Proxy_built {E : Externals} : Proxy.t -> Prop :=
| built_by_init (a : Proxy.args) : Proxy_built (Proxy.__init__ a)
| built_by_from_structure (structure : value) (p : Proxy.t) :
    Proxy.from_structure structure = Ok p -> Proxy_built p.

(** The first two rules of the dispatch were tested on the document [d] and
    neither matched: ["is"] is absent, or ["_behaviors"] is absent and the
    value under ["is"] could be searched for ["data"], which it does not
    contain. *)
Definition is_rules_fall_through (d : dict) : Prop :=
  dict_in "is" d = false
  \/ (dict_in "_behaviors" d = false
      /\ exists inner, dict_get "is" d = Some inner /\ py_in "data" inner = Ok false).

(** Truth value of an optional list of behaviors ([if self.copy:]). *)
Definition nonempty {A : Type} (xs : option (list A)) : bool :=
  match xs with
  | Some (_ :: _) => true
  | _ => false
  end.

(** The structures of an optional list of behaviors. *)
Definition serialize_list {A : Type} `{JsonSerializable A}
    (xs : option (list A)) : result (list value) :=
  match xs with
  | Some l => mapM as_structure l
  | None => Ok []
  end.

(** The behaviors parsed from the value under [key] of a dict, if any. *)
Definition parse_list {A : Type} `{JsonSerializable A}
    (key : string) (d : dict) : result (option (list A)) :=
  match dict_get key d with
  | Some v => items <- py_iter v ;; xs <- mapM from_structure items ;; Ok (Some xs)
  | None => Ok None
  end.

(** The round trip of one object: it serialises, and its structure parses
    back to it. *)
Definition round_trips {A : Type} `{JsonSerializable A} (x : A) : Prop :=
  exists s, as_structure x = Ok s /\ from_structure s = Ok x.

(** An optional list of behaviors that serialisation keeps: unset, or
    non-empty with elements that make the round trip. *)
Definition kept_behaviors {A : Type} `{JsonSerializable A}
    (xs : option (list A)) : Prop :=
  match xs with
  | None => True
  | Some l => l <> [] /\ Forall round_trips l
  end.

(** What [Proxy.as_structure] writes under ["to"]:
    [self.to.url if isinstance(self.to, furl) else self.to]. *)
Definition Proxy_to_value {E : Externals} (x : Proxy.target) : value :=
  match x with
  | Proxy.ToFurl f => VStr (furl_url f)
  | Proxy.ToOther v => v
  end.

(** The structure is a dict. *)
Definition is_dict (v : value) : bool :=
  match v with
  | VDict _ => true
  | _ => false
  end.

(** An object whose document is stable: it serialises, the document parses,
    and what was parsed serialises to the same document. *)
Definition reserialises {A : Type} `{JsonSerializable A} (x : A) : Prop :=
  exists s x', as_structure x = Ok s /\ from_structure s = Ok x'
               /\ as_structure x' = Ok s.

(** An optional list of behaviors with stable documents. *)
Definition stable_behaviors {A : Type} `{JsonSerializable A}
    (xs : option (list A)) : Prop :=
  match xs with
  | None => True
  | Some l => Forall reserialises l
  end.

(** The arguments [a] of [Response.__init__] with another [copy], and with
    another [lookup]. *)
Definition Response_with_copy {E : Externals} (x : one_or_seq Copy)
    (a : Response.args) : Response.args :=
  {| Response.arg_body := Response.arg_body a;
     Response.arg_status_code := Response.arg_status_code a;
     Response.arg_wait := Response.arg_wait a;
     Response.arg_repeat := Response.arg_repeat a;
     Response.arg_headers := Response.arg_headers a;
     Response.arg_mode := Response.arg_mode a;
     Response.arg_copy := x;
     Response.arg_decorate := Response.arg_decorate a;
     Response.arg_lookup := Response.arg_lookup a;
     Response.arg_shell_transform := Response.arg_shell_transform a |}.

Definition Response_with_lookup {E : Externals} (x : one_or_seq Lookup)
    (a : Response.args) : Response.args :=
  {| Response.arg_body := Response.arg_body a;
     Response.arg_status_code := Response.arg_status_code a;
     Response.arg_wait := Response.arg_wait a;
     Response.arg_repeat := Response.arg_repeat a;
     Response.arg_headers := Response.arg_headers a;
     Response.arg_mode := Response.arg_mode a;
     Response.arg_copy := Response.arg_copy a;
     Response.arg_decorate := Response.arg_decorate a;
     Response.arg_lookup := x;
     Response.arg_shell_transform := Response.arg_shell_transform a |}.

(** What a generator comes back as from its own document: a falsy [path]
    or [query] as [None], the operator as [EQUALS]. *)
Definition PredicateGenerator_reparsed {E : Externals}
    (pg : PredicateGenerator.t) : PredicateGenerator.t :=
  PredicateGenerator.__init__
    (if truthy (PredicateGenerator.path pg) then PredicateGenerator.path pg else VNone)
    (if truthy (PredicateGenerator.query pg) then PredicateGenerator.query pg else VNone)
    EQUALS
    (PredicateGenerator.case_sensitive pg).

(** ** Lemmas on the result monad and on dicts *)

Lemma bind_Ok {A B : Type} (a : A) (k : A -> result B) : bind (Ok a) k = k a.
Proof. reflexivity. Qed.

Lemma bind_Ok_inv {A B : Type} (r : result A) (k : A -> result B) (b : B) :
  bind r k = Ok b -> exists a, r = Ok a /\ k a = Ok b.
Proof.
  destruct r as [a | e]; simpl; intros H.
  - exists a; split; [reflexivity | exact H].
  - discriminate H.
Qed.


Lemma dict_get_set (k k' : string) (v : value) (d : dict) :
  dict_get k (dict_set k' v d) = if String.eqb k k' then Some v else dict_get k d.
Proof.
  induction d as [| [k0 v0] d IH]; simpl.
  - reflexivity.
  - destruct (String.eqb k' k0) eqn:E0; simpl.
    + apply String.eqb_eq in E0; subst k0.
      destruct (String.eqb k k'); reflexivity.
    + destruct (String.eqb k k0) eqn:E1.
      * apply String.eqb_eq in E1; subst k0.
        rewrite String.eqb_sym, E0; reflexivity.
      * exact IH.
Qed.

Lemma dict_get_add_if_true (k k' : string) (v : value) (d : dict) :
  dict_get k (_add_if_true d k' v)
  = if String.eqb k k' && truthy v then Some v else dict_get k d.
Proof.
  unfold _add_if_true.
  destruct (truthy v).
  - rewrite dict_get_set, andb_true_r; reflexivity.
  - rewrite andb_false_r; reflexivity.
Qed.

Lemma dict_in_add_if_true (k k' : string) (v : value) (d : dict) :
  dict_in k (_add_if_true d k' v) = (String.eqb k k' && truthy v) || dict_in k d.
Proof.
  unfold dict_in; rewrite dict_get_add_if_true.
  destruct (String.eqb k k' && truthy v); reflexivity.
Qed.



Lemma dict_in_false (k : string) (d : dict) :
  dict_in k d = false <-> dict_get k d = None.
Proof.
  unfold dict_in; destruct (dict_get k d); split; intros H;
    first [reflexivity | discriminate H].
Qed.

Lemma py_getitem_dict (k : string) (d : dict) (v : value) :
  dict_get k d = Some v -> py_getitem (VDict d) k = Ok v.
Proof. intros H; simpl; rewrite H; reflexivity. Qed.

(** ** Proxy *)

Section ProxyProperties.
Context {E : Externals}.

(** A [Proxy] built on a target alone: the defaults of the constructor, and
    the document they give. *)
Lemma Proxy_defaults_as_structure (x : Proxy.target) :
  Proxy.__init__ (Proxy.defaults x)
  = {| Proxy.to := x; Proxy.wait := VNone; Proxy.inject_headers := VNone;
       Proxy.mode := Proxy.ONCE; Proxy.predicate_generators := Some [] |}
  /\ Proxy.as_structure (Proxy.__init__ (Proxy.defaults x))
     = Ok (VDict [("proxy", VDict [("to", Proxy_to_value x);
                                   ("mode", VStr "proxyOnce")])]).
Proof. split; reflexivity. Qed.

(** C8. [Proxy(to="http://origin")], every other parameter at its default,
    serialises to exactly
    [{"proxy": {"to": "http://origin", "mode": "proxyOnce"}}]: the mode
    defaults to [ONCE], and the unset [wait] and [inject_headers] and the
    empty [predicate_generators] add no key. *)
Theorem Proxy_default_mode_scenario :
  Proxy.mode (Proxy.__init__ (Proxy.defaults (Proxy.ToOther (VStr "http://origin"))))
  = Proxy.ONCE
  /\ Proxy.as_structure
       (Proxy.__init__ (Proxy.defaults (Proxy.ToOther (VStr "http://origin"))))
     = Ok (VDict [("proxy", VDict [("to", VStr "http://origin");
                                   ("mode", VStr "proxyOnce")])]).
Proof.
  destruct (Proxy_defaults_as_structure (Proxy.ToOther (VStr "http://origin")))
    as [Hinit Hdoc].
  split.
  - rewrite Hinit. reflexivity.
  - exact Hdoc.
Qed.

Lemma Proxy_from_structure_generators (structure : value) (p : Proxy.t) :
  Proxy.from_structure structure = Ok p ->
  exists pgs, Proxy.predicate_generators p = Some pgs.
Proof.
  unfold Proxy.from_structure; intros H.
  repeat (apply bind_Ok_inv in H as (? & _ & H)).
  match type of H with
  | Ok (if ?c then _ else _) = _ => destruct c
  end;
    injection H as <-; simpl;
    match goal with
    | |- context [match ?x with Some _ => _ | None => _ end] => destruct x
    end; eexists; reflexivity.
Qed.

(** Parsing a document whose proxy block has no ["predicateGenerators"],
    a target [furl] accepts, a known mode and no ["_behaviors"]. *)
Lemma Proxy_from_structure_plain (d pd : dict) (u mv : value) (f : furl) (m : Proxy.Mode) :
  dict_get "proxy" d = Some (VDict pd) ->
  dict_in "predicateGenerators" pd = false ->
  dict_get "to" pd = Some u -> furl_new u = Ok f ->
  dict_get "mode" pd = Some mv -> Proxy.Mode_of_value mv = Ok m ->
  dict_in "_behaviors" d = false ->
  Proxy.from_structure (VDict d)
  = Ok {| Proxy.to := Proxy.ToFurl f; Proxy.wait := VNone;
          Proxy.inject_headers := dict_get_or "injectHeaders" pd VNone;
          Proxy.mode := m; Proxy.predicate_generators := Some [] |}.
Proof.
  intros Hp Hg Hto Hf Hmode Hm Hb.
  apply dict_in_false in Hb.
  unfold Proxy.from_structure.
  rewrite (py_getitem_dict _ _ Hp), bind_Ok.
  rewrite (py_getitem_dict _ _ Hto), bind_Ok, Hf, bind_Ok.
  rewrite (py_getitem_dict _ _ Hmode).
  simpl py_in. rewrite Hg. unfold dict_in.
  destruct (dict_get "injectHeaders" pd) as [h |] eqn:Hh; simpl;
    unfold dict_get_or; rewrite ?Hh, Hm, Hb; reflexivity.
Qed.

(** C10. A [Proxy]'s [predicate_generators] is never [None]: the
    constructor stores the empty list when the argument is [None] or left
    out and the given generators otherwise, every [Proxy] the constructor or
    [from_structure] builds holds a list, and a document whose proxy block
    has no ["predicateGenerators"] parses to a [Proxy] with the empty
    list. *)
Theorem Proxy_predicate_generators_never_None :
  (forall a : Proxy.args,
      Proxy.predicate_generators (Proxy.__init__ a)
      = Some (match Proxy.arg_predicate_generators a with
              | Some pgs => pgs
              | None => []
              end))
  /\ (forall x, Proxy.predicate_generators (Proxy.__init__ (Proxy.defaults x)) = Some [])
  /\ (forall p, Proxy_built p -> Proxy.predicate_generators p <> None)
  /\ (forall (d pd : dict) (p : Proxy.t),
        dict_get "proxy" d = Some (VDict pd) ->
        dict_in "predicateGenerators" pd = false ->
        Proxy.from_structure (VDict d) = Ok p ->
        Proxy.predicate_generators p = Some [])
  /\ (forall (d pd : dict) (u mv : value) (f : furl) (m : Proxy.Mode),
        dict_get "proxy" d = Some (VDict pd) ->
        dict_in "predicateGenerators" pd = false ->
        dict_get "to" pd = Some u -> furl_new u = Ok f ->
        dict_get "mode" pd = Some mv -> Proxy.Mode_of_value mv = Ok m ->
        dict_in "_behaviors" d = false ->
        exists p, Proxy.from_structure (VDict d) = Ok p
                  /\ Proxy.predicate_generators p = Some []).
Proof.
  split; [| split; [| split; [| split]]].
  - intros a; unfold Proxy.__init__; simpl.
    destruct (Proxy.arg_predicate_generators a); reflexivity.
  - reflexivity.
  - intros p [a | structure p' H].
    + unfold Proxy.__init__; simpl.
      destruct (Proxy.arg_predicate_generators a); discriminate.
    + apply Proxy_from_structure_generators in H as [pgs H].
      rewrite H; discriminate.
  - intros d pd p Hp Hg H.
    unfold Proxy.from_structure in H.
    rewrite (py_getitem_dict _ _ Hp), bind_Ok in H.
    repeat (apply bind_Ok_inv in H as (? & ? & H)).
    simpl py_in in *. rewrite Hg in *.
    match goal with
    | H0 : Ok false = Ok ?b |- _ => injection H0 as <-
    end.
    match goal with
    | H0 : Ok None = Ok ?o |- _ => injection H0 as <-
    end.
    match type of H with
    | Ok (if ?c then _ else _) = _ => destruct c
    end; injection H as <-; reflexivity.
  - intros d pd u mv f m Hp Hg Hto Hf Hmode Hm Hb.
    eexists; split.
    + eapply Proxy_from_structure_plain; eassumption.
    + reflexivity.
Qed.

End ProxyProperties.

Lemma Proxy_predicate_generators_never_None_witness :
  (exists p, Proxy.from_structure (E := Sample.externals)
               (VDict [("proxy", VDict [("to", VStr "http://origin");
                                        ("mode", VStr "proxyAlways")])]) = Ok p
             /\ Proxy.predicate_generators p = Some [])
  /\ Proxy.predicate_generators
       (Proxy.__init__ (E := Sample.externals)
          (Proxy.defaults (Proxy.ToOther (VStr "http://origin")))) <> None.
Proof.
  destruct (@Proxy_predicate_generators_never_None Sample.externals)
    as (_ & _ & Hbuilt & _ & Hparse).
  split.
  - apply (Hparse _ [("to", VStr "http://origin"); ("mode", VStr "proxyAlways")]
             (VStr "http://origin") (VStr "proxyAlways") "http://origin" Proxy.ALWAYS);
      reflexivity.
  - apply Hbuilt. apply built_by_init.
Defined.

(** ** PredicateGenerator *)

Section PredicateGeneratorProperties.
Context {E : Externals}.

(** [from_structure] on a dict whose ["matches"] is a dict. *)
Lemma PredicateGenerator_from_structure_dict (d m : dict) :
  dict_get "matches" d = Some (VDict m) ->
  PredicateGenerator.from_structure (VDict d)
  = (operator <- match dict_get "operator" d with
                 | Some name => Operator_getitem name
                 | None => Ok EQUALS
                 end ;;
     Ok (PredicateGenerator.__init__
           (dict_get_or "path" m VNone) (dict_get_or "query" m VNone)
           operator (dict_get_or "caseSensitive" d (VBool false)))).
Proof.
  intros Hm. unfold PredicateGenerator.from_structure.
  rewrite (py_getitem_dict _ _ Hm). simpl. unfold dict_in.
  destruct (dict_get "operator" d); reflexivity.
Qed.

Lemma PredicateGenerator_from_structure_inv (d : dict) (pg : PredicateGenerator.t) :
  PredicateGenerator.from_structure (VDict d) = Ok pg ->
  exists m, dict_get "matches" d = Some (VDict m).
Proof.
  unfold PredicateGenerator.from_structure; intros H.
  apply bind_Ok_inv in H as (m & Hm & H).
  apply bind_Ok_inv in H as (p & Hp & _).
  simpl in Hm. destruct (dict_get "matches" d) as [v |]; [| discriminate Hm].
  injection Hm as ->.
  destruct m; try discriminate Hp.
  eexists; reflexivity.
Qed.

(** C6. [as_structure] always emits ["caseSensitive"], with the value of
    the field, which the constructor defaults to [True]; [from_structure]
    on a structure without that key yields a generator whose
    [case_sensitive] is [False]. *)
Theorem PredicateGenerator_caseSensitive_asymmetry :
  (forall pg : PredicateGenerator.t,
      exists m, PredicateGenerator.as_structure pg
                = VDict [("caseSensitive", PredicateGenerator.case_sensitive pg);
                         ("matches", VDict m)])
  /\ PredicateGenerator.as_structure PredicateGenerator.default
     = VDict [("caseSensitive", VBool true); ("matches", VDict [])]
  /\ (forall (d : dict) (pg : PredicateGenerator.t),
        dict_in "caseSensitive" d = false ->
        PredicateGenerator.from_structure (VDict d) = Ok pg ->
        PredicateGenerator.case_sensitive pg = VBool false)
  /\ (forall d m : dict,
        dict_in "caseSensitive" d = false ->
        dict_get "matches" d = Some (VDict m) ->
        dict_in "operator" d = false ->
        PredicateGenerator.from_structure (VDict d)
        = Ok (PredicateGenerator.__init__
                (dict_get_or "path" m VNone) (dict_get_or "query" m VNone)
                EQUALS (VBool false))).
Proof.
  split; [| split; [| split]].
  - intros pg; eexists; reflexivity.
  - reflexivity.
  - intros d pg Hc H.
    destruct (PredicateGenerator_from_structure_inv _ H) as [m Hm].
    rewrite (PredicateGenerator_from_structure_dict _ Hm) in H.
    apply bind_Ok_inv in H as (o & _ & H).
    injection H as <-; simpl.
    apply dict_in_false in Hc. unfold dict_get_or; rewrite Hc; reflexivity.
  - intros d m Hc Hm Ho.
    rewrite (PredicateGenerator_from_structure_dict _ Hm).
    apply dict_in_false in Hc, Ho.
    unfold dict_get_or at 3. rewrite Hc, Ho. reflexivity.
Qed.

(** C7. [as_structure] never emits an ["operator"] key; [from_structure]
    looks the operator up by name: [EQUALS] when the key is absent, the
    member of that name when there is one, and a failure (the [KeyError] of
    the lookup, once ["matches"] was read) when the name is not a member. *)
Theorem PredicateGenerator_operator_asymmetry :
  (forall pg : PredicateGenerator.t,
      exists d, PredicateGenerator.as_structure pg = VDict d
                /\ dict_keys d = ["caseSensitive"; "matches"]
                /\ dict_in "operator" d = false)
  /\ (forall (d : dict) (pg : PredicateGenerator.t),
        dict_in "operator" d = false ->
        PredicateGenerator.from_structure (VDict d) = Ok pg ->
        PredicateGenerator.operator pg = EQUALS)
  /\ (forall d m : dict,
        dict_in "operator" d = false ->
        dict_get "matches" d = Some (VDict m) ->
        exists pg, PredicateGenerator.from_structure (VDict d) = Ok pg
                   /\ PredicateGenerator.operator pg = EQUALS)
  /\ (forall (d m : dict) (n : string) (o : Operator),
        dict_get "operator" d = Some (VStr n) ->
        assoc n Operator_members = Some o ->
        dict_get "matches" d = Some (VDict m) ->
        exists pg, PredicateGenerator.from_structure (VDict d) = Ok pg
                   /\ PredicateGenerator.operator pg = o)
  /\ (forall (d : dict) (n : string),
        dict_get "operator" d = Some (VStr n) ->
        assoc n Operator_members = None ->
        exists e, PredicateGenerator.from_structure (VDict d) = Err e)
  /\ (forall (d m : dict) (n : string),
        dict_get "operator" d = Some (VStr n) ->
        assoc n Operator_members = None ->
        dict_get "matches" d = Some (VDict m) ->
        PredicateGenerator.from_structure (VDict d) = Err (KeyError (VStr n))).
Proof.
  assert (Hbad : forall (d m : dict) (n : string),
             dict_get "operator" d = Some (VStr n) ->
             assoc n Operator_members = None ->
             dict_get "matches" d = Some (VDict m) ->
             PredicateGenerator.from_structure (VDict d) = Err (KeyError (VStr n))).
  { intros d m n Ho Hn Hm.
    rewrite (PredicateGenerator_from_structure_dict _ Hm), Ho.
    simpl. rewrite Hn. reflexivity. }
  split; [| split; [| split; [| split; [| split]]]].
  - intros pg; eexists; repeat split.
  - intros d pg Ho H.
    destruct (PredicateGenerator_from_structure_inv _ H) as [m Hm].
    rewrite (PredicateGenerator_from_structure_dict _ Hm) in H.
    apply dict_in_false in Ho. rewrite Ho in H.
    injection H as <-; reflexivity.
  - intros d m Ho Hm.
    rewrite (PredicateGenerator_from_structure_dict _ Hm).
    apply dict_in_false in Ho. rewrite Ho.
    eexists; split; reflexivity.
  - intros d m n o Ho Hn Hm.
    rewrite (PredicateGenerator_from_structure_dict _ Hm), Ho.
    simpl. rewrite Hn.
    eexists; split; reflexivity.
  - intros d n Ho Hn.
    destruct (PredicateGenerator.from_structure (VDict d)) as [pg | e] eqn:H.
    + destruct (PredicateGenerator_from_structure_inv _ H) as [m Hm].
      rewrite (Hbad _ _ _ Ho Hn Hm) in H. discriminate H.
    + exists e; reflexivity.
  - exact Hbad.
Qed.

End PredicateGeneratorProperties.

Lemma PredicateGenerator_caseSensitive_asymmetry_witness :
  PredicateGenerator.from_structure (E := Sample.externals)
    (VDict [("matches", VDict [("path", VBool true)])])
  = Ok (PredicateGenerator.__init__ (E := Sample.externals)
          (VBool true) VNone Sample.OpEquals (VBool false)).
Proof.
  destruct (@PredicateGenerator_caseSensitive_asymmetry Sample.externals)
    as (_ & _ & _ & H).
  apply (H [("matches", VDict [("path", VBool true)])] [("path", VBool true)]);
    reflexivity.
Defined.

Lemma PredicateGenerator_operator_asymmetry_witness :
  PredicateGenerator.from_structure (E := Sample.externals)
    (VDict [("matches", VDict []); ("operator", VStr "equals")])
  = Err (KeyError (VStr "equals"))
  /\ exists pg, PredicateGenerator.from_structure (E := Sample.externals)
                  (VDict [("matches", VDict [])]) = Ok pg
                /\ PredicateGenerator.operator pg = Sample.OpEquals.
Proof.
  destruct (@PredicateGenerator_operator_asymmetry Sample.externals)
    as (_ & _ & Habsent & _ & _ & Hbad).
  split.
  - apply (Hbad [("matches", VDict []); ("operator", VStr "equals")] []);
      reflexivity.
  - apply (Habsent [("matches", VDict [])] []); reflexivity.
Defined.

(** ** BaseResponse.from_structure *)

Section Dispatch.
Context {E : Externals}.

(** The dispatch on a dict, with the membership tests evaluated. *)
Lemma BaseResponse_from_structure_dict (d : dict) :
  BaseResponse.from_structure (VDict d)
  = if dict_in "is" d && dict_in "_behaviors" d
    then fmap BaseResponse.IsResponse (Response.from_structure (VDict d))
    else
      c <- match dict_get "is" d with
           | Some inner => py_in "data" inner
           | None => Ok false
           end ;;
      if (c : bool)
      then fmap BaseResponse.IsTcpResponse (TcpResponse.from_structure (VDict d))
      else if dict_in "proxy" d
      then fmap BaseResponse.IsProxy (Proxy.from_structure (VDict d))
      else if dict_in "inject" d
      then fmap BaseResponse.IsInjectionResponse (InjectionResponse.from_structure (VDict d))
      else Err NotImplementedError.
Proof.
  unfold BaseResponse.from_structure, py_and. simpl py_in. simpl py_getitem.
  unfold dict_in.
  destruct (dict_get "is" d) as [inner |]; simpl.
  - destruct (dict_get "_behaviors" d); reflexivity.
  - reflexivity.
Qed.

Lemma fall_through_dict (d : dict) :
  is_rules_fall_through d ->
  dict_in "is" d && dict_in "_behaviors" d = false
  /\ match dict_get "is" d with
     | Some inner => py_in "data" inner
     | None => Ok false
     end = Ok false.
Proof.
  intros [Hi | (Hb & inner & Hi & Hd)].
  - rewrite Hi. apply dict_in_false in Hi. rewrite Hi. split; reflexivity.
  - rewrite Hb, andb_false_r, Hi. split; [reflexivity | exact Hd].
Qed.

(** When ["is"] is there without ["_behaviors"] and its value cannot be
    searched, the second test raises and the dispatch ends there. *)
Lemma dispatch_is_not_searchable (d : dict) (inner : value) (e : exn) :
  dict_get "is" d = Some inner ->
  dict_in "_behaviors" d = false ->
  py_in "data" inner = Err e ->
  BaseResponse.from_structure (VDict d) = Err e.
Proof.
  intros Hi Hb He.
  rewrite BaseResponse_from_structure_dict, Hb, andb_false_r, Hi, He.
  reflexivity.
Qed.

(** C1, as the code has it.  On every document the four rules are tested
    in order and the result is that of the parser of the rule that matches:
    ["is"] with ["_behaviors"] goes to [Response] whatever the value under
    ["is"] holds; ["is"] whose value contains ["data"], without
    ["_behaviors"], to [TcpResponse]; when neither matched (["is"] absent,
    or its value searched for ["data"] in vain) ["proxy"] goes to [Proxy]
    and else ["inject"] to [InjectionResponse].  When ["is"] is there
    without ["_behaviors"] and its value cannot be searched, the dispatch
    raises, whatever other key is there. *)
Theorem from_structure_dispatch (d : dict) :
  (dict_in "is" d = true -> dict_in "_behaviors" d = true ->
   BaseResponse.from_structure (VDict d)
   = fmap BaseResponse.IsResponse (Response.from_structure (VDict d)))
  /\ (forall inner : value,
        dict_get "is" d = Some inner -> dict_in "_behaviors" d = false ->
        py_in "data" inner = Ok true ->
        BaseResponse.from_structure (VDict d)
        = fmap BaseResponse.IsTcpResponse (TcpResponse.from_structure (VDict d)))
  /\ (is_rules_fall_through d -> dict_in "proxy" d = true ->
      BaseResponse.from_structure (VDict d)
      = fmap BaseResponse.IsProxy (Proxy.from_structure (VDict d)))
  /\ (is_rules_fall_through d -> dict_in "proxy" d = false ->
      dict_in "inject" d = true ->
      BaseResponse.from_structure (VDict d)
      = fmap BaseResponse.IsInjectionResponse
          (InjectionResponse.from_structure (VDict d)))
  /\ (forall (inner : value) (e : exn),
        dict_get "is" d = Some inner -> dict_in "_behaviors" d = false ->
        py_in "data" inner = Err e ->
        BaseResponse.from_structure (VDict d) = Err e).
Proof.
  split; [| split; [| split; [| split]]].
  - intros Hi Hb.
    rewrite BaseResponse_from_structure_dict, Hi, Hb. reflexivity.
  - intros inner Hi Hb Hd.
    rewrite BaseResponse_from_structure_dict, Hb, andb_false_r, Hi, Hd.
    reflexivity.
  - intros Hf Hp. apply fall_through_dict in Hf as [H1 H2].
    rewrite BaseResponse_from_structure_dict, H1, H2, bind_Ok, Hp.
    reflexivity.
  - intros Hf Hp Hj. apply fall_through_dict in Hf as [H1 H2].
    rewrite BaseResponse_from_structure_dict, H1, H2, bind_Ok, Hp, Hj.
    reflexivity.
  - intros inner e. apply dispatch_is_not_searchable.
Qed.

(** C5, as the code has it.  A document no rule matches makes the dispatch
    fail and return nothing: with [NotImplementedError] when the first two
    rules were tested and fell through and neither ["proxy"] nor ["inject"]
    is there (the empty document is one), with [TypeError] when ["is"] is
    there without ["_behaviors"] and its value cannot be searched. *)
Theorem from_structure_unrecognized (d : dict) :
  (is_rules_fall_through d -> dict_in "proxy" d = false ->
   dict_in "inject" d = false ->
   BaseResponse.from_structure (VDict d) = Err NotImplementedError)
  /\ BaseResponse.from_structure (VDict []) = Err NotImplementedError
  /\ (forall inner : value,
        dict_get "is" d = Some inner -> dict_in "_behaviors" d = false ->
        is_ok (py_in "data" inner) = false ->
        BaseResponse.from_structure (VDict d) = Err TypeError)
  /\ (dict_in "is" d && dict_in "_behaviors" d = false ->
      (forall inner, dict_get "is" d = Some inner -> py_in "data" inner <> Ok true) ->
      dict_in "proxy" d = false -> dict_in "inject" d = false ->
      exists e, BaseResponse.from_structure (VDict d) = Err e).
Proof.
  split; [| split; [| split]].
  - intros Hf Hp Hj. apply fall_through_dict in Hf as [H1 H2].
    rewrite BaseResponse_from_structure_dict, H1, H2, bind_Ok, Hp, Hj.
    reflexivity.
  - reflexivity.
  - intros inner Hi Hb He.
    apply (dispatch_is_not_searchable _ Hi Hb).
    destruct inner; simpl in *; first [discriminate He | reflexivity].
  - intros H1 Hd Hp Hj.
    rewrite BaseResponse_from_structure_dict, H1, Hp, Hj.
    destruct (dict_get "is" d) as [inner |].
    + specialize (Hd inner eq_refl).
      destruct (py_in "data" inner) as [[|] | e]; simpl.
      * contradiction Hd; reflexivity.
      * eexists; reflexivity.
      * eexists; reflexivity.
    + simpl. eexists; reflexivity.
Qed.

End Dispatch.

(** C1 as stated fails: in [{"is": None, "proxy": {...}}] there is no
    ["_behaviors"], the value under ["is"] holds no ["data"], and ["proxy"]
    is there with a block the [Proxy] parser accepts; the dispatch does not
    yield that [Proxy] but raises [TypeError], on the test of the second
    rule. *)
Lemma from_structure_dispatch_counterexample :
  let d := [("is", VNone);
            ("proxy", VDict [("to", VStr "http://origin"); ("mode", VStr "proxyOnce")])] in
  dict_in "_behaviors" d = false
  /\ dict_get "is" d = Some VNone
  /\ dict_in "proxy" d = true
  /\ is_ok (Proxy.from_structure (E := Sample.externals) (VDict d)) = true
  /\ BaseResponse.from_structure (E := Sample.externals) (VDict d) = Err TypeError.
Proof. repeat split. Qed.

Lemma from_structure_dispatch_witness :
  BaseResponse.from_structure (E := Sample.externals)
    (VDict [("is", VDict [("data", VStr "ABC"); ("_mode", VStr "text")]);
            ("_behaviors", VDict [])])
  = fmap BaseResponse.IsResponse
      (Response.from_structure
         (VDict [("is", VDict [("data", VStr "ABC"); ("_mode", VStr "text")]);
                 ("_behaviors", VDict [])]))
  /\ BaseResponse.from_structure (E := Sample.externals)
       (VDict [("is", VDict [("data", VStr "ABC")]); ("proxy", VDict [])])
     = fmap BaseResponse.IsTcpResponse
         (TcpResponse.from_structure
            (VDict [("is", VDict [("data", VStr "ABC")]); ("proxy", VDict [])]))
  /\ BaseResponse.from_structure (E := Sample.externals)
       (VDict [("is", VDict []); ("inject", VStr "f"); ("proxy", VDict [])])
     = fmap BaseResponse.IsProxy
         (Proxy.from_structure
            (VDict [("is", VDict []); ("inject", VStr "f"); ("proxy", VDict [])]))
  /\ BaseResponse.from_structure (E := Sample.externals)
       (VDict [("inject", VStr "f")])
     = fmap BaseResponse.IsInjectionResponse
         (InjectionResponse.from_structure (VDict [("inject", VStr "f")])).
Proof.
  split; [| split; [| split]].
  - apply (proj1 (@from_structure_dispatch Sample.externals _)); reflexivity.
  - apply (proj1 (proj2 (@from_structure_dispatch Sample.externals _))
             (VDict [("data", VStr "ABC")])); reflexivity.
  - apply (proj1 (proj2 (proj2 (@from_structure_dispatch Sample.externals _)))).
    + right. split; [reflexivity |]. exists (VDict []). split; reflexivity.
    + reflexivity.
  - apply (proj1 (proj2 (proj2 (proj2 (@from_structure_dispatch Sample.externals _))))).
    + left. reflexivity.
    + reflexivity.
    + reflexivity.
Defined.

(** C5 as stated fails: the document [{"is": 5}] has none of the four
    shapes, and the dispatch fails with [TypeError], not with the error of an
    unrecognized shape. *)
Lemma from_structure_unrecognized_counterexample :
  let d := [("is", VInt 5)] in
  dict_in "_behaviors" d = false
  /\ dict_get "is" d = Some (VInt 5)
  /\ dict_in "proxy" d = false
  /\ dict_in "inject" d = false
  /\ BaseResponse.from_structure (E := Sample.externals) (VDict d) = Err TypeError
  /\ BaseResponse.from_structure (E := Sample.externals) (VDict d)
     <> Err NotImplementedError.
Proof. repeat split. discriminate. Qed.

Lemma from_structure_unrecognized_witness :
  BaseResponse.from_structure (E := Sample.externals)
    (VDict [("is", VDict [("statusCode", VInt 200)]); ("other", VNone)])
  = Err NotImplementedError.
Proof.
  apply (proj1 (@from_structure_unrecognized Sample.externals _)).
  - right. split; [reflexivity |].
    exists (VDict [("statusCode", VInt 200)]). split; reflexivity.
  - reflexivity.
  - reflexivity.
Defined.

(** ** Response *)

Section ResponseProperties.
Context {E : Externals}.

Lemma mapM_length {A B : Type} (f : A -> result B) (l : list A) (bs : list B) :
  mapM f l = Ok bs -> length bs = length l.
Proof.
  revert bs; induction l as [| a l IH]; simpl; intros bs H.
  - injection H as <-; reflexivity.
  - apply bind_Ok_inv in H as (b & _ & H).
    apply bind_Ok_inv in H as (bs' & Hbs & H).
    injection H as <-; simpl. rewrite (IH _ Hbs); reflexivity.
Qed.

Lemma serialize_list_truthy {A : Type} `{JsonSerializable A}
    (xs : option (list A)) (ss : list value) :
  serialize_list xs = Ok ss -> truthy (VList ss) = nonempty xs.
Proof.
  destruct xs as [l |]; simpl; intros Hs.
  - apply mapM_length in Hs.
    destruct l, ss; simpl in *; first [reflexivity | discriminate Hs].
  - injection Hs as <-; reflexivity.
Qed.

Lemma add_serialized_eq {A : Type} `{JsonSerializable A}
    (behaviors : dict) (key : string) (xs : option (list A)) :
  Response.add_serialized behaviors key xs
  = (ss <- serialize_list xs ;; Ok (_add_if_true behaviors key (VList ss))).
Proof.
  destruct xs as [[| a l] |]; simpl; try reflexivity.
  destruct (as_structure a) as [s |]; simpl; [| reflexivity].
  destruct (mapM as_structure l); reflexivity.
Qed.

(** The ["is"] block, once the body is known. *)
Lemma Response_is_structure_eq (r : Response.t) (b : value) :
  Response.body r = Ok b ->
  Response._is_structure r
  = Ok (_add_if_true
          (_add_if_true
             [("statusCode", Response.status_code r);
              ("_mode", VStr (Response.Mode_value (Response.mode r)))]
             "body" b)
          "headers" (Response.headers r)).
Proof. intros Hb; unfold Response._is_structure; rewrite Hb; reflexivity. Qed.

(** The ["_behaviors"] block, once the behaviors are serialised. *)
Lemma Response_behaviors_structure_eq (r : Response.t) (cs ls : list value) :
  serialize_list (Response.copy r) = Ok cs ->
  serialize_list (Response.lookup r) = Ok ls ->
  Response._behaviors_structure r
  = Ok (_add_if_true
          (_add_if_true
             (_add_if_true
                (_add_if_true
                   (_add_if_true
                      (_add_if_true [] "wait" (Response.wait r))
                      "repeat" (Response.repeat r))
                   "decorate" (Response.decorate r))
                "shellTransform" (Response.shell_transform r))
             "copy" (VList cs))
          "lookup" (VList ls)).
Proof.
  intros Hc Hl; unfold Response._behaviors_structure.
  rewrite add_serialized_eq, Hc; cbn [bind].
  rewrite add_serialized_eq, Hl; reflexivity.
Qed.

Lemma Response_behaviors_structure_inv (r : Response.t) (beh : dict) :
  Response._behaviors_structure r = Ok beh ->
  exists cs ls, serialize_list (Response.copy r) = Ok cs
                /\ serialize_list (Response.lookup r) = Ok ls.
Proof.
  unfold Response._behaviors_structure; intros H.
  apply bind_Ok_inv in H as (b1 & H1 & H).
  rewrite add_serialized_eq in H1.
  apply bind_Ok_inv in H1 as (cs & Hc & _).
  apply bind_Ok_inv in H as (b2 & H2 & _).
  rewrite add_serialized_eq in H2.
  apply bind_Ok_inv in H2 as (ls & Hl & _).
  exists cs, ls; split; assumption.
Qed.

Lemma Response_as_structure_inv (r : Response.t) (s : value) :
  Response.as_structure r = Ok s ->
  exists i beh, Response._is_structure r = Ok i
                /\ Response._behaviors_structure r = Ok beh
                /\ s = VDict [("is", VDict i); ("_behaviors", VDict beh)].
Proof.
  unfold Response.as_structure; intros H.
  apply bind_Ok_inv in H as (i & Hi & H).
  apply bind_Ok_inv in H as (beh & Hb & H).
  injection H as <-. exists i, beh; repeat split; assumption.
Qed.

Lemma Response_is_structure_inv (r : Response.t) (i : dict) :
  Response._is_structure r = Ok i -> exists b, Response.body r = Ok b.
Proof.
  unfold Response._is_structure; intros H.
  apply bind_Ok_inv in H as (b & Hb & _). exists b; exact Hb.
Qed.

(** C4. The ["is"] block of a [Response] always holds ["statusCode"] (the
    status code as it is, falsy or not) and ["_mode"]; it holds ["body"]
    exactly when the body is truthy and ["headers"] exactly when the headers
    are.  The block exists as soon as the body can be read, and it is the
    value under ["is"] of what [as_structure] returns. *)
Theorem Response_is_block :
  (forall (r : Response.t) (b : value),
      Response.body r = Ok b ->
      exists i, Response._is_structure r = Ok i
                /\ dict_get "statusCode" i = Some (Response.status_code r)
                /\ dict_get "_mode" i
                   = Some (VStr (Response.Mode_value (Response.mode r)))
                /\ dict_in "body" i = truthy b
                /\ dict_in "headers" i = truthy (Response.headers r))
  /\ (forall (r : Response.t) (s : value),
        Response.as_structure r = Ok s ->
        exists i beh b, Response.body r = Ok b
                        /\ Response._is_structure r = Ok i
                        /\ s = VDict [("is", VDict i); ("_behaviors", VDict beh)]).
Proof.
  split.
  - intros r b Hb. eexists; split; [apply (Response_is_structure_eq _ Hb) |].
    rewrite !dict_get_add_if_true, !dict_in_add_if_true; simpl.
    rewrite !orb_false_r. repeat split; reflexivity.
  - intros r s H.
    apply Response_as_structure_inv in H as (i & beh & Hi & _ & ->).
    destruct (Response_is_structure_inv _ Hi) as [b Hb].
    exists i, beh, b; repeat split; assumption.
Qed.

Lemma set_if_in_dict_dict {A : Type} (get : A -> value) (set : value -> A -> A)
    (self : A) (d : dict) (key : string) :
  set (get self) self = self ->
  _set_if_in_dict self (VDict d) key set
  = Ok (set (dict_get_or key d (get self)) self).
Proof.
  intros Hset. unfold _set_if_in_dict, dict_get_or. simpl. unfold dict_in.
  destruct (dict_get key d); simpl; [reflexivity | rewrite Hset; reflexivity].
Qed.

Lemma set_parsed_dict {A : Type} `{JsonSerializable A} (self : Response.t)
    (d : dict) (key : string) (set : option (list A) -> Response.t -> Response.t) :
  Response.set_parsed self (VDict d) key set
  = (xs <- parse_list key d ;;
     Ok (match xs with Some l => set (Some l) self | None => self end)).
Proof.
  unfold Response.set_parsed, parse_list. simpl. unfold dict_in.
  destruct (dict_get key d) as [v |]; simpl; [| reflexivity].
  destruct (py_iter v) as [items |]; simpl; [| reflexivity].
  destruct (mapM from_structure items); reflexivity.
Qed.

Lemma Response_fields_from_structure_dict (r : Response.t) (d inner : dict)
    (mv : value) (m : Response.Mode) :
  dict_get "is" d = Some (VDict inner) ->
  dict_get "_mode" inner = Some mv ->
  Response.Mode_of_value mv = Ok m ->
  Response._fields_from_structure r (VDict d)
  = Ok (Response.set_status_code
          (dict_get_or "statusCode" inner (Response.status_code r))
          (Response.set_headers
             (dict_get_or "headers" inner (Response.headers r))
             (Response.set_mode m
                (match dict_get "body" inner with
                 | Some v => Response.set__body (Response.BodyOther v) r
                 | None => r
                 end)))).
Proof.
  intros Hi Hmv Hm. unfold Response._fields_from_structure.
  rewrite (py_getitem_dict _ _ Hi); cbn [bind].
  simpl py_in. simpl py_getitem. unfold dict_in, dict_get_or. rewrite Hmv.
  destruct (dict_get "body" inner), (dict_get "headers" inner),
    (dict_get "statusCode" inner); simpl; rewrite Hm; destruct r; reflexivity.
Qed.

(** [Response.from_structure] on a document whose ["is"] block is a dict
    with a known mode and whose behaviors, if any, are a dict. *)
Lemma Response_from_structure_dict (d inner beh : dict) (mv : value)
    (m : Response.Mode) :
  dict_get "is" d = Some (VDict inner) ->
  dict_get "_mode" inner = Some mv ->
  Response.Mode_of_value mv = Ok m ->
  dict_get_or "_behaviors" d (VDict []) = VDict beh ->
  Response.from_structure (VDict d)
  = (c <- parse_list "copy" beh ;;
     l <- parse_list "lookup" beh ;;
     Ok {| Response._body := Response.BodyOther (dict_get_or "body" inner (VStr ""));
           Response.status_code := dict_get_or "statusCode" inner (VInt 200);
           Response.wait := dict_get_or "wait" beh VNone;
           Response.repeat := dict_get_or "repeat" beh VNone;
           Response.headers := dict_get_or "headers" inner VNone;
           Response.mode := m;
           Response.copy := c;
           Response.decorate := dict_get_or "decorate" beh VNone;
           Response.lookup := l;
           Response.shell_transform := dict_get_or "shellTransform" beh VNone |}).
Proof.
  intros Hi Hmv Hm Hb. unfold Response.from_structure.
  change (Response.__init__ Response.defaults) with
    (Ok {| Response._body := Response.BodyOther (VStr "");
           Response.status_code := VInt 200; Response.wait := VNone;
           Response.repeat := VNone; Response.headers := VNone;
           Response.mode := Response.TEXT; Response.copy := None;
           Response.decorate := VNone; Response.lookup := None;
           Response.shell_transform := VNone |}).
  cbn [bind].
  rewrite (Response_fields_from_structure_dict _ _ Hi Hmv Hm); cbn [bind].
  simpl py_get. rewrite Hb; cbn [bind].
  rewrite (set_if_in_dict_dict Response.wait) by (destruct (dict_get "body" inner); reflexivity).
  cbn [bind].
  rewrite (set_if_in_dict_dict Response.repeat) by (destruct (dict_get "body" inner); reflexivity).
  cbn [bind].
  rewrite (set_if_in_dict_dict Response.decorate) by (destruct (dict_get "body" inner); reflexivity).
  cbn [bind].
  rewrite (set_if_in_dict_dict Response.shell_transform)
    by (destruct (dict_get "body" inner); reflexivity).
  cbn [bind].
  rewrite !set_parsed_dict.
  destruct (parse_list "copy" beh) as [[c |] | e]; cbn [bind];
    rewrite ?set_parsed_dict;
    try (destruct (parse_list "lookup" beh) as [[l |] | e']; cbn [bind]);
    unfold dict_get_or; destruct (dict_get "body" inner); reflexivity.
Qed.

(** C9. [Response.from_structure] requires ["_mode"]: on a document whose
    ["is"] block has no ["_mode"] it raises the [KeyError] of that key.
    ["body"], ["headers"] and ["statusCode"] are not required: on every
    document whose ["is"] block has a known mode and whose ["_behaviors"] is
    absent or a dict, each of the three that is absent leaves the
    constructor's default ([""], [None], [200]) and raises nothing, so that
    the parse fails only if a ["copy"] or a ["lookup"] of the behaviors
    does, and returns the object when the behaviors hold neither. *)
Theorem Response_mode_is_required :
  (forall d inner : dict,
      dict_get "is" d = Some (VDict inner) ->
      dict_in "_mode" inner = false ->
      Response.from_structure (VDict d) = Err (KeyError (VStr "_mode")))
  /\ (forall (d inner beh : dict) (mv : value) (m : Response.Mode),
        dict_get "is" d = Some (VDict inner) ->
        dict_get "_mode" inner = Some mv ->
        Response.Mode_of_value mv = Ok m ->
        dict_get_or "_behaviors" d (VDict []) = VDict beh ->
        Response.from_structure (VDict d)
        = (c <- parse_list "copy" beh ;;
           l <- parse_list "lookup" beh ;;
           Ok {| Response._body :=
                   Response.BodyOther (dict_get_or "body" inner (VStr ""));
                 Response.status_code := dict_get_or "statusCode" inner (VInt 200);
                 Response.wait := dict_get_or "wait" beh VNone;
                 Response.repeat := dict_get_or "repeat" beh VNone;
                 Response.headers := dict_get_or "headers" inner VNone;
                 Response.mode := m;
                 Response.copy := c;
                 Response.decorate := dict_get_or "decorate" beh VNone;
                 Response.lookup := l;
                 Response.shell_transform :=
                   dict_get_or "shellTransform" beh VNone |}))
  /\ (forall (d inner beh : dict) (mv : value) (m : Response.Mode),
        dict_get "is" d = Some (VDict inner) ->
        dict_get "_mode" inner = Some mv ->
        Response.Mode_of_value mv = Ok m ->
        dict_get_or "_behaviors" d (VDict []) = VDict beh ->
        dict_in "copy" beh = false ->
        dict_in "lookup" beh = false ->
        Response.from_structure (VDict d)
        = Ok {| Response._body :=
                  Response.BodyOther (dict_get_or "body" inner (VStr ""));
                Response.status_code := dict_get_or "statusCode" inner (VInt 200);
                Response.wait := dict_get_or "wait" beh VNone;
                Response.repeat := dict_get_or "repeat" beh VNone;
                Response.headers := dict_get_or "headers" inner VNone;
                Response.mode := m;
                Response.copy := None;
                Response.decorate := dict_get_or "decorate" beh VNone;
                Response.lookup := None;
                Response.shell_transform :=
                  dict_get_or "shellTransform" beh VNone |}).
Proof.
  split; [| split].
  - intros d inner Hi Hm. apply dict_in_false in Hm.
    unfold Response.from_structure, Response._fields_from_structure.
    change (Response.__init__ Response.defaults) with
      (Ok {| Response._body := Response.BodyOther (VStr "");
             Response.status_code := VInt 200; Response.wait := VNone;
             Response.repeat := VNone; Response.headers := VNone;
             Response.mode := Response.TEXT; Response.copy := None;
             Response.decorate := VNone; Response.lookup := None;
             Response.shell_transform := VNone |}).
    cbn [bind]. rewrite (py_getitem_dict _ _ Hi); cbn [bind].
    simpl py_in. simpl py_getitem. rewrite Hm. unfold dict_in.
    destruct (dict_get "body" inner); reflexivity.
  - intros d inner beh mv m Hi Hmv Hm Hb.
    exact (Response_from_structure_dict _ Hi Hmv Hm Hb).
  - intros d inner beh mv m Hi Hmv Hm Hb Hc Hl.
    rewrite (Response_from_structure_dict _ Hi Hmv Hm Hb).
    apply dict_in_false in Hc, Hl.
    unfold parse_list. rewrite Hc, Hl. reflexivity.
Qed.

End ResponseProperties.

Lemma Response_is_block_witness :
  exists i,
    Response._is_structure (E := Sample.externals)
      {| Response._body := Response.BodyBytes [];
         Response.status_code := VInt 0; Response.wait := VNone;
         Response.repeat := VNone; Response.headers := VDict [];
         Response.mode := Response.BINARY; Response.copy := None;
         Response.decorate := VNone; Response.lookup := None;
         Response.shell_transform := VNone |} = Ok i
    /\ dict_get "statusCode" i = Some (VInt 0)
    /\ dict_get "_mode" i = Some (VStr "binary")
    /\ dict_in "body" i = false
    /\ dict_in "headers" i = false.
Proof.
  exact (proj1 (@Response_is_block Sample.externals)
           {| Response._body := Response.BodyBytes [];
              Response.status_code := VInt 0; Response.wait := VNone;
              Response.repeat := VNone; Response.headers := VDict [];
              Response.mode := Response.BINARY; Response.copy := None;
              Response.decorate := VNone; Response.lookup := None;
              Response.shell_transform := VNone |}
           (VStr "") eq_refl).
Defined.

Lemma Response_mode_is_required_witness :
  Response.from_structure (E := Sample.externals)
    (VDict [("is", VDict [("body", VStr "hi"); ("statusCode", VInt 200)]);
            ("_behaviors", VDict [])])
  = Err (KeyError (VStr "_mode"))
  /\ Response.from_structure (E := Sample.externals)
       (VDict [("is", VDict [("_mode", VStr "text")]); ("_behaviors", VDict [])])
     = Ok {| Response._body := Response.BodyOther (VStr "");
             Response.status_code := VInt 200; Response.wait := VNone;
             Response.repeat := VNone; Response.headers := VNone;
             Response.mode := Response.TEXT; Response.copy := None;
             Response.decorate := VNone; Response.lookup := None;
             Response.shell_transform := VNone |}
  /\ Response.from_structure (E := Sample.externals)
       (VDict [("is", VDict [("_mode", VStr "binary"); ("headers", VDict [])]);
               ("_behaviors",
                VDict [("wait", VInt 500); ("copy", VList [VStr "c"])])])
     = Ok {| Response._body := Response.BodyOther (VStr "");
             Response.status_code := VInt 200; Response.wait := VInt 500;
             Response.repeat := VNone; Response.headers := VDict [];
             Response.mode := Response.BINARY;
             Response.copy := Some [(VStr "c" : @Copy Sample.externals)];
             Response.decorate := VNone; Response.lookup := None;
             Response.shell_transform := VNone |}.
Proof.
  destruct (@Response_mode_is_required Sample.externals) as (Hmissing & Hany & Hplain).
  split; [| split].
  - apply (Hmissing _ [("body", VStr "hi"); ("statusCode", VInt 200)]);
      reflexivity.
  - apply (Hplain _ [("_mode", VStr "text")] [] (VStr "text") Response.TEXT);
      reflexivity.
  - etransitivity.
    + apply (Hany _ [("_mode", VStr "binary"); ("headers", VDict [])]
               [("wait", VInt 500); ("copy", VList [VStr "c"])]
               (VStr "binary") Response.BINARY); reflexivity.
    + reflexivity.
Defined.

(** ** The omission law *)

Section Omission.
Context {E : Externals}.

Lemma Proxy_as_structure_eq (p : Proxy.t) (pgs : list PredicateGenerator.t) :
  Proxy.predicate_generators p = Some pgs ->
  Proxy.as_structure p
  = Ok (VDict
          (let proxy :=
             _add_if_true
               (_add_if_true
                  [("to", match Proxy.to p with
                          | Proxy.ToFurl f => VStr (furl_url f)
                          | Proxy.ToOther v => v
                          end);
                   ("mode", VStr (Proxy.Mode_value (Proxy.mode p)))]
                  "injectHeaders" (Proxy.inject_headers p))
               "predicateGenerators"
               (VList (map PredicateGenerator.as_structure pgs)) in
           if truthy (Proxy.wait p)
           then [("proxy", VDict proxy);
                 ("_behaviors", VDict [("wait", Proxy.wait p)])]
           else [("proxy", VDict proxy)])).
Proof.
  intros Hp. unfold Proxy.as_structure. rewrite Hp. cbn [bind].
  destruct (truthy (Proxy.wait p)); reflexivity.
Qed.

Lemma Proxy_as_structure_inv (p : Proxy.t) (s : value) :
  Proxy.as_structure p = Ok s ->
  exists pgs, Proxy.predicate_generators p = Some pgs.
Proof.
  unfold Proxy.as_structure.
  destruct (Proxy.predicate_generators p) as [pgs |]; intros H.
  - exists pgs; reflexivity.
  - discriminate H.
Qed.

Lemma truthy_map_list {A : Type} (f : A -> value) (l : list A) :
  truthy (VList (map f l)) = nonempty (Some l).
Proof. destruct l; reflexivity. Qed.

(** C3. An optional field whose value is falsy leaves no key in the
    document: in a [Response], ["body"] and ["headers"] of the ["is"] block
    and ["wait"], ["repeat"], ["decorate"], ["shellTransform"], ["copy"] and
    ["lookup"] of the behaviors are there exactly when the field is truthy; in
    a [Proxy], ["injectHeaders"] and ["predicateGenerators"] of the proxy
    block and the top-level ["_behaviors"], which holds the [wait]; in a
    [PredicateGenerator], ["path"] and ["query"] of the matches.  Each
    document exists: a [Response] serialises when its body can be read and
    its behaviors serialise, a [Proxy] when its generators are a list. *)
Theorem omission_law :
  (forall (r : Response.t) (s : value),
      Response.as_structure r = Ok s ->
      exists i beh b,
        s = VDict [("is", VDict i); ("_behaviors", VDict beh)]
        /\ Response.body r = Ok b
        /\ dict_in "body" i = truthy b
        /\ dict_in "headers" i = truthy (Response.headers r)
        /\ dict_in "wait" beh = truthy (Response.wait r)
        /\ dict_in "repeat" beh = truthy (Response.repeat r)
        /\ dict_in "decorate" beh = truthy (Response.decorate r)
        /\ dict_in "shellTransform" beh = truthy (Response.shell_transform r)
        /\ dict_in "copy" beh = nonempty (Response.copy r)
        /\ dict_in "lookup" beh = nonempty (Response.lookup r))
  /\ (forall (r : Response.t) (b : value) (cs ls : list value),
        Response.body r = Ok b ->
        serialize_list (Response.copy r) = Ok cs ->
        serialize_list (Response.lookup r) = Ok ls ->
        exists s, Response.as_structure r = Ok s)
  /\ (forall (p : Proxy.t) (s : value),
        Proxy.as_structure p = Ok s ->
        exists top px,
          s = VDict top
          /\ dict_get "proxy" top = Some (VDict px)
          /\ dict_in "injectHeaders" px = truthy (Proxy.inject_headers p)
          /\ dict_in "predicateGenerators" px = nonempty (Proxy.predicate_generators p)
          /\ dict_in "_behaviors" top = truthy (Proxy.wait p)
          /\ dict_in "wait" top = false)
  /\ (forall (p : Proxy.t) (pgs : list PredicateGenerator.t),
        Proxy.predicate_generators p = Some pgs ->
        exists s, Proxy.as_structure p = Ok s)
  /\ (forall pg : PredicateGenerator.t,
        exists m,
          PredicateGenerator.as_structure pg
          = VDict [("caseSensitive", PredicateGenerator.case_sensitive pg);
                   ("matches", VDict m)]
          /\ dict_in "path" m = truthy (PredicateGenerator.path pg)
          /\ dict_in "query" m = truthy (PredicateGenerator.query pg)).
Proof.
  split; [| split; [| split; [| split]]].
  - intros r s H.
    apply Response_as_structure_inv in H as (i & beh & Hi & Hbeh & ->).
    destruct (Response_is_structure_inv _ Hi) as [b Hb].
    destruct (Response_behaviors_structure_inv _ Hbeh) as (cs & ls & Hc & Hl).
    rewrite (Response_is_structure_eq _ Hb) in Hi.
    rewrite (Response_behaviors_structure_eq _ Hc Hl) in Hbeh.
    injection Hi as <-. injection Hbeh as <-.
    do 3 eexists. split; [reflexivity |]. split; [exact Hb |].
    rewrite !dict_in_add_if_true.
    rewrite (serialize_list_truthy _ Hc), (serialize_list_truthy _ Hl).
    simpl. rewrite !orb_false_r. repeat split; reflexivity.
  - intros r b cs ls Hb Hc Hl. unfold Response.as_structure.
    rewrite (Response_is_structure_eq _ Hb), (Response_behaviors_structure_eq _ Hc Hl).
    eexists; reflexivity.
  - intros p s H.
    destruct (Proxy_as_structure_inv _ H) as [pgs Hp].
    rewrite (Proxy_as_structure_eq _ Hp) in H. injection H as <-.
    rewrite Hp. cbv zeta.
    destruct (truthy (Proxy.wait p)); do 2 eexists;
      (split; [reflexivity |]); (split; [reflexivity |]);
      rewrite !dict_in_add_if_true, truthy_map_list; simpl;
      rewrite !orb_false_r; repeat split; reflexivity.
  - intros p pgs Hp. rewrite (Proxy_as_structure_eq _ Hp). eexists; reflexivity.
  - intros pg. eexists. split; [reflexivity |].
    rewrite !dict_in_add_if_true. simpl. rewrite !orb_false_r.
    split; reflexivity.
Qed.

End Omission.

Lemma omission_law_witness :
  let r : Response.t (E := Sample.externals) :=
    {| Response._body := Response.BodyOther (VStr "");
       Response.status_code := VInt 200; Response.wait := VInt 0;
       Response.repeat := VNone; Response.headers := VDict [];
       Response.mode := Response.TEXT; Response.copy := Some [];
       Response.decorate := VStr ""; Response.lookup := None;
       Response.shell_transform := VList [] |} in
  let s :=
    VDict [("is", VDict [("statusCode", VInt 200); ("_mode", VStr "text")]);
           ("_behaviors", VDict [])] in
  exists i beh b,
    s = VDict [("is", VDict i); ("_behaviors", VDict beh)]
    /\ Response.body r = Ok b
    /\ dict_in "body" i = truthy b
    /\ dict_in "headers" i = truthy (Response.headers r)
    /\ dict_in "wait" beh = truthy (Response.wait r)
    /\ dict_in "repeat" beh = truthy (Response.repeat r)
    /\ dict_in "decorate" beh = truthy (Response.decorate r)
    /\ dict_in "shellTransform" beh = truthy (Response.shell_transform r)
    /\ dict_in "copy" beh = nonempty (Response.copy r)
    /\ dict_in "lookup" beh = nonempty (Response.lookup r).
Proof.
  intros r s.
  exact (proj1 (@omission_law Sample.externals) r s eq_refl).
Defined.

(** ** The round trip *)

Section RoundTrip.
Context {E : Externals}.

Local Arguments truthy : simpl never.

Lemma kept_value (v : value) :
  unset_or_truthy v = true -> (if truthy v then v else VNone) = v.
Proof.
  destruct v; unfold unset_or_truthy; intros H; rewrite ?H; reflexivity.
Qed.

Lemma kept_body (b : value) :
  truthy b = true \/ b = VStr "" -> (if truthy b then b else VStr "") = b.
Proof. intros [H | ->]; [rewrite H |]; reflexivity. Qed.

Lemma dict_get_or_add_if_true (k k' : string) (v default : value) (d : dict) :
  dict_get_or k (_add_if_true d k' v) default
  = if String.eqb k k' && truthy v then v else dict_get_or k d default.
Proof.
  unfold dict_get_or. rewrite dict_get_add_if_true.
  destruct (String.eqb k k' && truthy v); reflexivity.
Qed.

Lemma mapM_round_trip {A : Type} `{JsonSerializable A} (l : list A) :
  Forall round_trips l ->
  exists ss, mapM as_structure l = Ok ss /\ mapM from_structure ss = Ok l.
Proof.
  induction 1 as [| a l (s & Hs & Hp) _ (ss & Hss & Hps)]; simpl.
  - exists []; split; reflexivity.
  - exists (s :: ss). rewrite Hs, Hss. simpl. rewrite Hp, Hps.
    split; reflexivity.
Qed.

(** Behaviors that are kept serialise, and the value serialisation leaves
    under their key parses back to them. *)
Lemma kept_behaviors_round_trip {A : Type} `{JsonSerializable A}
    (xs : option (list A)) :
  kept_behaviors xs ->
  exists ss,
    serialize_list xs = Ok ss
    /\ forall (key : string) (d : dict),
         dict_get key d = (if truthy (VList ss) then Some (VList ss) else None) ->
         parse_list key d = Ok xs.
Proof.
  destruct xs as [l |]; simpl.
  - intros [Hne Hall].
    destruct (mapM_round_trip Hall) as (ss & Hss & Hps).
    exists ss. split; [exact Hss |].
    intros key d Hd. unfold parse_list.
    assert (Ht : truthy (VList ss) = true).
    { apply mapM_length in Hss. destruct l, ss; simpl in Hss;
        first [contradiction Hne; reflexivity | discriminate Hss | reflexivity]. }
    rewrite Hd, Ht. simpl. rewrite Hps. reflexivity.
  - intros _. exists []. split; [reflexivity |].
    intros key d Hd. unfold parse_list. rewrite Hd. reflexivity.
Qed.

Lemma Response_Mode_round_trip (m : Response.Mode) :
  Response.Mode_of_value (VStr (Response.Mode_value m)) = Ok m.
Proof. destruct m; reflexivity. Qed.

Lemma Proxy_Mode_round_trip (m : Proxy.Mode) :
  Proxy.Mode_of_value (VStr (Proxy.Mode_value m)) = Ok m.
Proof. destruct m; reflexivity. Qed.

Lemma TcpResponse_round_trip (t : TcpResponse.t) : round_trips t.
Proof. destruct t. eexists; split; reflexivity. Qed.

Lemma InjectionResponse_round_trip (i : InjectionResponse.t) : round_trips i.
Proof. destruct i. eexists; split; reflexivity. Qed.

Lemma PredicateGenerator_round_trip (pg : PredicateGenerator.t) :
  unset_or_truthy (PredicateGenerator.path pg) = true ->
  unset_or_truthy (PredicateGenerator.query pg) = true ->
  PredicateGenerator.operator pg = EQUALS ->
  round_trips pg.
Proof.
  destruct pg as [p q o c]; simpl; intros Hp Hq ->.
  eexists; split; [reflexivity |].
  cbn [from_structure PredicateGenerator_json].
  unfold PredicateGenerator.as_structure; cbn [PredicateGenerator.path
    PredicateGenerator.query PredicateGenerator.case_sensitive].
  erewrite PredicateGenerator_from_structure_dict by reflexivity.
  rewrite !dict_get_or_add_if_true. unfold dict_get_or. simpl.
  rewrite (kept_value _ Hp), (kept_value _ Hq). reflexivity.
Qed.

Lemma Response_round_trip (r : Response.t) (b : value) :
  Response.body r = Ok b ->
  truthy b = true \/ b = VStr "" ->
  unset_or_truthy (Response.wait r) = true ->
  unset_or_truthy (Response.repeat r) = true ->
  unset_or_truthy (Response.headers r) = true ->
  unset_or_truthy (Response.decorate r) = true ->
  unset_or_truthy (Response.shell_transform r) = true ->
  kept_behaviors (Response.copy r) ->
  kept_behaviors (Response.lookup r) ->
  exists s, Response.as_structure r = Ok s
            /\ Response.from_structure s
               = Ok (Response.set__body (Response.BodyOther b) r).
Proof.
  intros Hb Hbody Hw Hr Hh Hd Hs Hc Hl.
  destruct (kept_behaviors_round_trip _ Hc) as (cs & Hcs & Hcp).
  destruct (kept_behaviors_round_trip _ Hl) as (ls & Hls & Hlp).
  eexists. split.
  - unfold Response.as_structure.
    rewrite (Response_is_structure_eq _ Hb), (Response_behaviors_structure_eq _ Hcs Hls).
    reflexivity.
  - erewrite Response_from_structure_dict;
      [ | reflexivity
        | rewrite !dict_get_add_if_true; simpl; reflexivity
        | apply Response_Mode_round_trip
        | reflexivity ].
    rewrite Hcp by (rewrite !dict_get_add_if_true; simpl; reflexivity).
    rewrite Hlp by (rewrite !dict_get_add_if_true; simpl; reflexivity).
    cbn [bind]. rewrite !dict_get_or_add_if_true. unfold dict_get_or. simpl.
    rewrite (kept_value _ Hw), (kept_value _ Hr), (kept_value _ Hh),
      (kept_value _ Hd), (kept_value _ Hs), (kept_body Hbody).
    destruct r; reflexivity.
Qed.

Lemma mapM_Ok {A B : Type} (f : A -> B) (l : list A) :
  mapM (fun x => Ok (f x)) l = Ok (map f l).
Proof.
  induction l as [| a l IH]; simpl; [| rewrite IH]; reflexivity.
Qed.

(** [Proxy.from_structure] on a document whose proxy block is a dict with a
    target [furl] accepts and a known mode, and whose behaviors, if any, are
    a dict. *)
Lemma Proxy_from_structure_dict (d pd beh : dict) (u mv : value) (f : furl)
    (m : Proxy.Mode) :
  dict_get "proxy" d = Some (VDict pd) ->
  dict_get "to" pd = Some u -> furl_new u = Ok f ->
  dict_get "mode" pd = Some mv -> Proxy.Mode_of_value mv = Ok m ->
  dict_get_or "_behaviors" d (VDict []) = VDict beh ->
  Proxy.from_structure (VDict d)
  = (pgs <- parse_list "predicateGenerators" pd ;;
     Ok {| Proxy.to := Proxy.ToFurl f;
           Proxy.wait := (if truthy (dict_get_or "wait" beh VNone)
                          then dict_get_or "wait" beh VNone else VNone);
           Proxy.inject_headers := dict_get_or "injectHeaders" pd VNone;
           Proxy.mode := m;
           Proxy.predicate_generators :=
             Some (match pgs with Some l => l | None => [] end) |}).
Proof.
  intros Hp Hto Hf Hmode Hm Hb.
  unfold Proxy.from_structure.
  rewrite (py_getitem_dict _ _ Hp); cbn [bind].
  rewrite (py_getitem_dict _ _ Hto); cbn [bind]. rewrite Hf; cbn [bind].
  rewrite (py_getitem_dict _ _ Hmode).
  simpl py_in. simpl py_get. rewrite Hb. simpl py_get. cbn [bind].
  unfold dict_in, parse_list, dict_get_or. simpl py_getitem.
  change (@from_structure PredicateGenerator.t PredicateGenerator_json)
    with PredicateGenerator.from_structure.
  destruct (dict_get "injectHeaders" pd) as [h |]; cbn [bind]; rewrite Hm;
    cbn [bind];
    destruct (dict_get "predicateGenerators" pd) as [v |]; cbn [bind];
    try match goal with
        | |- context [py_iter ?x] =>
            destruct (py_iter x) as [items |]; cbn [bind]; [| reflexivity];
            destruct (mapM PredicateGenerator.from_structure items); cbn [bind];
            [| reflexivity]
        end;
    simpl py_get; unfold dict_get_or; cbn [bind];
    destruct (dict_get "wait" beh) as [w |];
    try match goal with
        | |- context [truthy ?x] => destruct (truthy x)
        end;
    reflexivity.
Qed.

Lemma Proxy_round_trip (p : Proxy.t) (f : furl) (pgs : list PredicateGenerator.t) :
  furl_new (Proxy_to_value (Proxy.to p)) = Ok f ->
  unset_or_truthy (Proxy.wait p) = true ->
  unset_or_truthy (Proxy.inject_headers p) = true ->
  Proxy.predicate_generators p = Some pgs ->
  Forall round_trips pgs ->
  exists s, Proxy.as_structure p = Ok s
            /\ Proxy.from_structure s
               = Ok {| Proxy.to := Proxy.ToFurl f; Proxy.wait := Proxy.wait p;
                       Proxy.inject_headers := Proxy.inject_headers p;
                       Proxy.mode := Proxy.mode p;
                       Proxy.predicate_generators := Some pgs |}.
Proof.
  intros Hf Hw Hh Hp Hall.
  destruct (mapM_round_trip Hall) as (ss & Hss & Hps).
  cbn [as_structure PredicateGenerator_json] in Hss.
  rewrite mapM_Ok in Hss. injection Hss as <-.
  assert (Hparse : forall px,
             dict_get "predicateGenerators" px
             = (if truthy (VList (map PredicateGenerator.as_structure pgs))
                then Some (VList (map PredicateGenerator.as_structure pgs))
                else None) ->
             exists o, parse_list "predicateGenerators" px = Ok o
                       /\ match o with Some l => l | None => [] end = pgs).
  { intros px Hpx. unfold parse_list. rewrite Hpx.
    destruct pgs as [| pg pgs'].
    - exists None; split; reflexivity.
    - exists (Some (pg :: pgs')). split; [| reflexivity].
      change (truthy (VList (map PredicateGenerator.as_structure (pg :: pgs'))))
        with true.
      cbn [py_iter bind]. rewrite Hps. reflexivity. }
  rewrite (Proxy_as_structure_eq _ Hp). eexists. split; [reflexivity |].
  cbv zeta.
  match goal with
  | |- context [VDict (_add_if_true ?d "predicateGenerators" ?v)] =>
      destruct (Hparse (_add_if_true d "predicateGenerators" v)) as (o & Ho & Hpgs);
      [ rewrite !dict_get_add_if_true; simpl; reflexivity | ]
  end.
  destruct (truthy (Proxy.wait p)) eqn:Ht.
  - erewrite Proxy_from_structure_dict;
      [ | reflexivity
        | rewrite !dict_get_add_if_true; simpl; reflexivity
        | exact Hf
        | rewrite !dict_get_add_if_true; simpl; reflexivity
        | apply Proxy_Mode_round_trip
        | reflexivity ].
    rewrite Ho. cbn [bind]. rewrite Hpgs.
    rewrite !dict_get_or_add_if_true. unfold dict_get_or. simpl.
    rewrite Ht, (kept_value _ Hh). reflexivity.
  - erewrite Proxy_from_structure_dict;
      [ | reflexivity
        | rewrite !dict_get_add_if_true; simpl; reflexivity
        | exact Hf
        | rewrite !dict_get_add_if_true; simpl; reflexivity
        | apply Proxy_Mode_round_trip
        | reflexivity ].
    rewrite Ho. cbn [bind]. rewrite Hpgs.
    rewrite !dict_get_or_add_if_true. unfold dict_get_or. simpl.
    rewrite (kept_value _ Hh).
    pose proof (kept_value _ Hw) as Hv. rewrite Ht in Hv.
    rewrite <- Hv. reflexivity.
Qed.

(** C2, as the code has it.  [from_structure] of [as_structure] rebuilds a
    [TcpResponse] and an [InjectionResponse] always, and the other objects
    when each optional field is unset ([None]) or truthy, a falsy value being
    left out of the document: a [PredicateGenerator] whose operator, which is
    not written, is [EQUALS], with [case_sensitive] as it was written; a
    [Response] whose body reads as [""] or as a truthy value and whose
    behaviors are unset or non-empty lists of behaviors that make the round
    trip, rebuilt with the body as it reads; a [Proxy] whose generators make
    the round trip, rebuilt with [furl] of the target it wrote. *)
Theorem round_trip_law :
  (forall t : TcpResponse.t, round_trips t)
  /\ (forall i : InjectionResponse.t, round_trips i)
  /\ (forall pg : PredicateGenerator.t,
        unset_or_truthy (PredicateGenerator.path pg) = true ->
        unset_or_truthy (PredicateGenerator.query pg) = true ->
        PredicateGenerator.operator pg = EQUALS ->
        round_trips pg)
  /\ (forall (r : Response.t) (b : value),
        Response.body r = Ok b ->
        truthy b = true \/ b = VStr "" ->
        unset_or_truthy (Response.wait r) = true ->
        unset_or_truthy (Response.repeat r) = true ->
        unset_or_truthy (Response.headers r) = true ->
        unset_or_truthy (Response.decorate r) = true ->
        unset_or_truthy (Response.shell_transform r) = true ->
        kept_behaviors (Response.copy r) ->
        kept_behaviors (Response.lookup r) ->
        exists s r',
          Response.as_structure r = Ok s
          /\ Response.from_structure s = Ok r'
          /\ r' = Response.set__body (Response.BodyOther b) r
          /\ Response.body r' = Response.body r)
  /\ (forall (p : Proxy.t) (f : furl) (pgs : list PredicateGenerator.t),
        furl_new (Proxy_to_value (Proxy.to p)) = Ok f ->
        unset_or_truthy (Proxy.wait p) = true ->
        unset_or_truthy (Proxy.inject_headers p) = true ->
        Proxy.predicate_generators p = Some pgs ->
        Forall round_trips pgs ->
        exists s,
          Proxy.as_structure p = Ok s
          /\ Proxy.from_structure s
             = Ok {| Proxy.to := Proxy.ToFurl f; Proxy.wait := Proxy.wait p;
                     Proxy.inject_headers := Proxy.inject_headers p;
                     Proxy.mode := Proxy.mode p;
                     Proxy.predicate_generators := Some pgs |}).
Proof.
  split; [| split; [| split; [| split]]].
  - exact TcpResponse_round_trip.
  - exact InjectionResponse_round_trip.
  - exact PredicateGenerator_round_trip.
  - intros r b Hb Hbody Hw Hr Hh Hd Hs Hc Hl.
    destruct (Response_round_trip r Hb Hbody Hw Hr Hh Hd Hs Hc Hl) as (s & Hs1 & Hs2).
    exists s, (Response.set__body (Response.BodyOther b) r).
    repeat split; try assumption.
    rewrite Hb. reflexivity.
  - exact Proxy_round_trip.
Qed.

End RoundTrip.

Lemma round_trip_law_witness :
  let r : Response.t (E := Sample.externals) :=
    {| Response._body := Response.BodyBytes ["h"%byte; "i"%byte];
       Response.status_code := VInt 0; Response.wait := VInt 500;
       Response.repeat := VNone;
       Response.headers := VDict [("Content-Type", VStr "text/plain")];
       Response.mode := Response.BINARY;
       Response.copy :=
         Some [(VDict [("from", VStr "path")] : @Copy Sample.externals)];
       Response.decorate := VNone; Response.lookup := None;
       Response.shell_transform := VNone |} in
  let p : Proxy.t (E := Sample.externals) :=
    {| Proxy.to := Proxy.ToFurl ("http://origin" : @furl Sample.externals);
       Proxy.wait := VInt 100; Proxy.inject_headers := VNone;
       Proxy.mode := Proxy.ALWAYS;
       Proxy.predicate_generators :=
         Some [PredicateGenerator.__init__ (E := Sample.externals)
                 (VBool true) VNone Sample.OpEquals (VBool false)] |} in
  (exists s r',
      Response.as_structure r = Ok s
      /\ Response.from_structure s = Ok r'
      /\ r' = Response.set__body (Response.BodyOther (VStr "hi")) r
      /\ Response.body r' = Response.body r)
  /\ (exists s, Proxy.as_structure p = Ok s /\ Proxy.from_structure s = Ok p).
Proof.
  intros r p.
  destruct (@round_trip_law Sample.externals) as (_ & _ & Hpg & Hr & Hp).
  split.
  - apply (Hr r (VStr "hi")); try reflexivity.
    + left; reflexivity.
    + split; [discriminate |].
      constructor; [| constructor].
      eexists; split; reflexivity.
  - apply (Hp p ("http://origin" : @furl Sample.externals)); try reflexivity.
    constructor; [| constructor].
    apply Hpg; reflexivity.
Defined.

(** C2 as stated fails.  A generator built with every default has
    [path = False], which is left out of its structure and parsed back as
    [None]; an operator other than [EQUALS] is not written and comes back as
    [EQUALS]; a [Response] with [wait = 0] comes back with [wait = None]; and
    a [Proxy] built on the string of its target comes back with a [furl]. *)
Lemma round_trip_law_counterexample :
  let pg := PredicateGenerator.default (E := Sample.externals) in
  let pg' := PredicateGenerator.__init__ (E := Sample.externals)
               (VBool true) (VBool true) Sample.OpContains (VBool true) in
  let r : Response.t (E := Sample.externals) :=
    {| Response._body := Response.BodyOther (VStr "hi");
       Response.status_code := VInt 200; Response.wait := VInt 0;
       Response.repeat := VNone; Response.headers := VNone;
       Response.mode := Response.TEXT; Response.copy := None;
       Response.decorate := VNone; Response.lookup := None;
       Response.shell_transform := VNone |} in
  let p := Proxy.__init__ (E := Sample.externals)
             (Proxy.defaults (Proxy.ToOther (VStr "http://origin"))) in
  (PredicateGenerator.from_structure (PredicateGenerator.as_structure pg)
   = Ok (PredicateGenerator.__init__ (E := Sample.externals)
           VNone VNone Sample.OpEquals (VBool true))
   /\ PredicateGenerator.path pg = VBool false
   /\ ~ round_trips pg)
  /\ (PredicateGenerator.from_structure (PredicateGenerator.as_structure pg')
      = Ok (PredicateGenerator.__init__ (E := Sample.externals)
              (VBool true) (VBool true) Sample.OpEquals (VBool true))
      /\ ~ round_trips pg')
  /\ (exists s r',
         Response.as_structure r = Ok s
         /\ Response.from_structure (E := Sample.externals) s = Ok r'
         /\ Response.wait r = VInt 0 /\ Response.wait r' = VNone)
  /\ (exists s p',
         Proxy.as_structure p = Ok s
         /\ Proxy.from_structure (E := Sample.externals) s = Ok p'
         /\ Proxy.to p = Proxy.ToOther (E := Sample.externals) (VStr "http://origin")
         /\ Proxy.to p' = Proxy.ToFurl (E := Sample.externals) "http://origin").
Proof.
  cbv zeta. split; [| split; [| split]].
  - split; [reflexivity |]. split; [reflexivity |].
    intros (s & Hs & Hp). injection Hs as <-. discriminate Hp.
  - split; [reflexivity |].
    intros (s & Hs & Hp). injection Hs as <-. discriminate Hp.
  - do 2 eexists. repeat split.
  - do 2 eexists. repeat split.
Qed.

(** ** The enumerations *)

Lemma Response_Mode_of_value_inv (v : value) (m : Response.Mode) :
  Response.Mode_of_value v = Ok m -> v = VStr (Response.Mode_value m).
Proof.
  destruct v as [| | | s | |]; simpl; try discriminate.
  destruct (String.eqb s "text") eqn:Ht.
  - apply String.eqb_eq in Ht. intros H; injection H as <-. subst s; reflexivity.
  - destruct (String.eqb s "binary") eqn:Hb; [| discriminate].
    apply String.eqb_eq in Hb. intros H; injection H as <-. subst s; reflexivity.
Qed.

Lemma Proxy_Mode_of_value_inv (v : value) (m : Proxy.Mode) :
  Proxy.Mode_of_value v = Ok m -> v = VStr (Proxy.Mode_value m).
Proof.
  destruct v as [| | | s | |]; simpl; try discriminate.
  destruct (String.eqb s "proxyOnce") eqn:H1.
  { apply String.eqb_eq in H1. intros H; injection H as <-. subst s; reflexivity. }
  destruct (String.eqb s "proxyAlways") eqn:H2.
  { apply String.eqb_eq in H2. intros H; injection H as <-. subst s; reflexivity. }
  destruct (String.eqb s "proxyTransparent") eqn:H3; [| discriminate].
  apply String.eqb_eq in H3. intros H; injection H as <-. subst s; reflexivity.
Qed.

Lemma Response_Mode_of_value_error (v : value) (e : exn) :
  Response.Mode_of_value v = Err e -> e = ValueError.
Proof.
  destruct v as [| | | s | |]; simpl; try (intros H; injection H as <-; reflexivity).
  destruct (String.eqb s "text"); [discriminate |].
  destruct (String.eqb s "binary"); [discriminate |].
  intros H; injection H as <-; reflexivity.
Qed.

Lemma Proxy_Mode_of_value_error (v : value) (e : exn) :
  Proxy.Mode_of_value v = Err e -> e = ValueError.
Proof.
  destruct v as [| | | s | |]; simpl; try (intros H; injection H as <-; reflexivity).
  destruct (String.eqb s "proxyOnce"); [discriminate |].
  destruct (String.eqb s "proxyAlways"); [discriminate |].
  destruct (String.eqb s "proxyTransparent"); [discriminate |].
  intros H; injection H as <-; reflexivity.
Qed.

(** X1. Each mode tag parses to its one member and each member is written
    as its tag: [Mode(v)] returns [m] exactly when [v] is the string
    [m.value], for [Response.Mode] and for [Proxy.Mode]; any other value, a
    tag in another case or a value that is no string among them, raises
    [ValueError]. *)
Theorem Mode_fidelity :
  (forall (v : value) (m : Response.Mode),
      Response.Mode_of_value v = Ok m <-> v = VStr (Response.Mode_value m))
  /\ (forall (v : value) (m : Proxy.Mode),
        Proxy.Mode_of_value v = Ok m <-> v = VStr (Proxy.Mode_value m))
  /\ (forall v : value,
        (forall m, v <> VStr (Response.Mode_value m)) ->
        Response.Mode_of_value v = Err ValueError)
  /\ (forall v : value,
        (forall m, v <> VStr (Proxy.Mode_value m)) ->
        Proxy.Mode_of_value v = Err ValueError).
Proof.
  split; [| split; [| split]].
  - intros v m; split.
    + apply Response_Mode_of_value_inv.
    + intros ->. destruct m; reflexivity.
  - intros v m; split.
    + apply Proxy_Mode_of_value_inv.
    + intros ->. destruct m; reflexivity.
  - intros v Hv.
    destruct (Response.Mode_of_value v) as [m | e] eqn:H.
    + apply Response_Mode_of_value_inv in H. contradiction (Hv m).
    + apply Response_Mode_of_value_error in H. subst e; reflexivity.
  - intros v Hv.
    destruct (Proxy.Mode_of_value v) as [m | e] eqn:H.
    + apply Proxy_Mode_of_value_inv in H. contradiction (Hv m).
    + apply Proxy_Mode_of_value_error in H. subst e; reflexivity.
Qed.

Lemma Mode_fidelity_witness :
  Response.Mode_of_value (VStr "TEXT") = Err ValueError
  /\ Proxy.Mode_of_value (VInt 1) = Err ValueError.
Proof.
  destruct Mode_fidelity as (_ & _ & Hr & Hp).
  split.
  - apply Hr. intros m; destruct m; discriminate.
  - apply Hp. intros m; discriminate.
Defined.

(** ** The constructor of Response *)

Section ResponseConstructor.
Context {E : Externals}.

(** X2. [Response.__init__] raises only on its [mode] argument: a member is
    stored as it is, a falsy raw value ([None], [""]) gives [TEXT], a raw tag
    gives its member, and a truthy raw value that is no tag raises
    [ValueError]; in every other case the object is built. *)
Theorem Response_init_mode (a : Response.args) :
  (forall m, Response.arg_mode a = Response.ModeMember m ->
             exists r, Response.__init__ a = Ok r /\ Response.mode r = m)
  /\ (forall v, Response.arg_mode a = Response.ModeRaw v -> truthy v = false ->
                exists r, Response.__init__ a = Ok r
                          /\ Response.mode r = Response.TEXT)
  /\ (forall m, Response.arg_mode a
                = Response.ModeRaw (VStr (Response.Mode_value m)) ->
                exists r, Response.__init__ a = Ok r /\ Response.mode r = m)
  /\ (forall v, Response.arg_mode a = Response.ModeRaw v -> truthy v = true ->
                (forall m, v <> VStr (Response.Mode_value m)) ->
                Response.__init__ a = Err ValueError)
  /\ (forall e, Response.__init__ a = Err e ->
                e = ValueError
                /\ exists v, Response.arg_mode a = Response.ModeRaw v
                             /\ truthy v = true
                             /\ forall m, v <> VStr (Response.Mode_value m)).
Proof.
  unfold Response.__init__.
  split; [| split; [| split; [| split]]].
  - intros m ->. eexists; split; reflexivity.
  - intros v -> Hv. rewrite Hv. eexists; split; reflexivity.
  - intros m ->. destruct m; eexists; split; reflexivity.
  - intros v -> Hv Hm. rewrite Hv.
    destruct (Response.Mode_of_value v) as [m | e] eqn:H; simpl.
    + apply Response_Mode_of_value_inv in H. contradiction (Hm m).
    + apply Response_Mode_of_value_error in H. subst e; reflexivity.
  - intros e H.
    destruct (Response.arg_mode a) as [m | v]; [discriminate H |].
    destruct (truthy v) eqn:Hv; [| discriminate H].
    destruct (Response.Mode_of_value v) as [m | e'] eqn:Hm; [discriminate H |].
    simpl in H. injection H as <-.
    split; [exact (Response_Mode_of_value_error _ Hm) |].
    exists v. split; [reflexivity |]. split; [exact Hv |].
    intros m ->. destruct m; discriminate Hm.
Qed.

(** X3. One behavior and the list of that one behavior are the same
    argument: [Response(copy=c)] is [Response(copy=[c])], and likewise for
    [lookup].  No behavior and the empty list are stored differently ([None],
    [[]]) and serialise to the same document. *)
Theorem Response_init_behaviors (a : Response.args) :
  (forall c, Response.__init__ (Response_with_copy (ArgOne c) a)
             = Response.__init__ (Response_with_copy (ArgSeq [c]) a))
  /\ (forall l, Response.__init__ (Response_with_lookup (ArgOne l) a)
                = Response.__init__ (Response_with_lookup (ArgSeq [l]) a))
  /\ (forall r, Response.__init__ (Response_with_copy ArgNone a) = Ok r ->
                exists r', Response.__init__ (Response_with_copy (ArgSeq []) a) = Ok r'
                           /\ Response.copy r = None
                           /\ Response.copy r' = Some []
                           /\ Response.as_structure r' = Response.as_structure r)
  /\ (forall r, Response.__init__ (Response_with_lookup ArgNone a) = Ok r ->
                exists r', Response.__init__ (Response_with_lookup (ArgSeq []) a) = Ok r'
                           /\ Response.lookup r = None
                           /\ Response.lookup r' = Some []
                           /\ Response.as_structure r' = Response.as_structure r).
Proof.
  split; [| split; [| split]].
  - intros c. reflexivity.
  - intros l. reflexivity.
  - intros r H. unfold Response.__init__ in *. simpl in *.
    apply bind_Ok_inv in H as (m & Hm & H). rewrite Hm. simpl.
    injection H as <-. eexists. repeat split.
  - intros r H. unfold Response.__init__ in *. simpl in *.
    apply bind_Ok_inv in H as (m & Hm & H). rewrite Hm. simpl.
    injection H as <-. eexists. repeat split.
Qed.

End ResponseConstructor.

Lemma Response_init_mode_witness :
  Response.__init__ (E := Sample.externals)
    {| Response.arg_body := Response.BodyOther (VStr "");
       Response.arg_status_code := VInt 200; Response.arg_wait := VNone;
       Response.arg_repeat := VNone; Response.arg_headers := VNone;
       Response.arg_mode := Response.ModeRaw (VStr "TEXT");
       Response.arg_copy := ArgNone; Response.arg_decorate := VNone;
       Response.arg_lookup := ArgNone; Response.arg_shell_transform := VNone |}
  = Err ValueError.
Proof.
  apply (proj1 (proj2 (proj2 (proj2 (@Response_init_mode Sample.externals _))))
           (VStr "TEXT")).
  - reflexivity.
  - reflexivity.
  - intros m; destruct m; discriminate.
Defined.

Lemma Response_init_behaviors_witness :
  let r : Response.t (E := Sample.externals) :=
    {| Response._body := Response.BodyOther (VStr "");
       Response.status_code := VInt 200; Response.wait := VNone;
       Response.repeat := VNone; Response.headers := VNone;
       Response.mode := Response.TEXT; Response.copy := None;
       Response.decorate := VNone; Response.lookup := None;
       Response.shell_transform := VNone |} in
  exists r' : Response.t (E := Sample.externals),
    Response.__init__ (Response_with_copy (ArgSeq []) Response.defaults) = Ok r'
    /\ Response.copy r = None
    /\ Response.copy r' = Some []
    /\ Response.as_structure r' = Response.as_structure r.
Proof.
  intros r.
  exact (proj1 (proj2 (proj2 (@Response_init_behaviors Sample.externals
                                Response.defaults))) r eq_refl).
Defined.

(** ** What parsing and serialising a Response can and cannot do *)

Section ResponseBody.
Context {E : Externals}.

Lemma set_if_in_dict_inv {A : Type} (self r : A) (d : value) (key : string)
    (set : value -> A -> A) :
  _set_if_in_dict self d key set = Ok r -> r = self \/ exists v, r = set v self.
Proof.
  unfold _set_if_in_dict; intros H.
  apply bind_Ok_inv in H as ([|] & _ & H).
  - apply bind_Ok_inv in H as (v & _ & H). injection H as <-.
    right; exists v; reflexivity.
  - injection H as <-. left; reflexivity.
Qed.

Lemma set_parsed_inv {A : Type} `{JsonSerializable A} (self r : Response.t)
    (d : value) (key : string) (set : option (list A) -> Response.t -> Response.t) :
  Response.set_parsed self d key set = Ok r ->
  r = self \/ exists xs, r = set xs self.
Proof.
  unfold Response.set_parsed; intros H0.
  apply bind_Ok_inv in H0 as ([|] & _ & H0).
  - apply bind_Ok_inv in H0 as (l & _ & H0).
    apply bind_Ok_inv in H0 as (items & _ & H0).
    apply bind_Ok_inv in H0 as (xs & _ & H0).
    injection H0 as <-. right; eexists; reflexivity.
  - injection H0 as <-. left; reflexivity.
Qed.

Lemma fields_from_structure_body (self r : Response.t) (structure : value) :
  Response._fields_from_structure self structure = Ok r ->
  (exists v, Response._body self = Response.BodyOther v) ->
  exists v, Response._body r = Response.BodyOther v.
Proof.
  unfold Response._fields_from_structure; intros H Hself.
  apply bind_Ok_inv in H as (inner & _ & H).
  apply bind_Ok_inv in H as (hb & _ & H).
  apply bind_Ok_inv in H as (r1 & H1 & H).
  assert (Hr1 : exists v, Response._body r1 = Response.BodyOther v).
  { destruct hb.
    - apply bind_Ok_inv in H1 as (v & _ & H1). injection H1 as <-.
      exists v; reflexivity.
    - injection H1 as <-. exact Hself. }
  apply bind_Ok_inv in H as (mv & _ & H).
  apply bind_Ok_inv in H as (m & _ & H).
  apply bind_Ok_inv in H as (hh & _ & H).
  apply bind_Ok_inv in H as (r2 & H2 & H).
  assert (Hr2 : exists v, Response._body r2 = Response.BodyOther v).
  { destruct hh.
    - apply bind_Ok_inv in H2 as (v & _ & H2). injection H2 as <-. exact Hr1.
    - injection H2 as <-. exact Hr1. }
  apply bind_Ok_inv in H as (hs & _ & H).
  destruct hs.
  - apply bind_Ok_inv in H as (v & _ & H). injection H as <-. exact Hr2.
  - injection H as <-. exact Hr2.
Qed.

(** X4. A parsed [Response] holds its body as the document gave it, never
    as bytes or as an XML element: its [body] property returns that value
    and cannot raise. *)
Theorem Response_parsed_body (structure : value) (r : Response.t) :
  Response.from_structure structure = Ok r ->
  exists v, Response._body r = Response.BodyOther v /\ Response.body r = Ok v.
Proof.
  intros H.
  assert (Hb : exists v, Response._body r = Response.BodyOther v).
  { unfold Response.from_structure in H.
    apply bind_Ok_inv in H as (r0 & H0 & H).
    injection H0 as <-.
    apply bind_Ok_inv in H as (r1 & H1 & H).
    apply fields_from_structure_body in H1; [| eexists; reflexivity].
    apply bind_Ok_inv in H as (beh & _ & H).
    apply bind_Ok_inv in H as (r2 & H2 & H).
    apply bind_Ok_inv in H as (r3 & H3 & H).
    apply bind_Ok_inv in H as (r4 & H4 & H).
    apply bind_Ok_inv in H as (r5 & H5 & H).
    apply bind_Ok_inv in H as (r6 & H6 & H).
    apply bind_Ok_inv in H as (r7 & H7 & H).
    injection H as <-.
    apply set_if_in_dict_inv in H2, H3, H4, H5.
    apply set_parsed_inv in H6, H7.
    destruct H2 as [-> | [? ->]], H3 as [-> | [? ->]], H4 as [-> | [? ->]],
      H5 as [-> | [? ->]], H6 as [-> | [? ->]], H7 as [-> | [? ->]];
      exact H1. }
  destruct Hb as [v Hv]. exists v. split; [exact Hv |].
  unfold Response.body. rewrite Hv. reflexivity.
Qed.

(** X5. [Response.as_structure] returns a document exactly when the body
    can be read and the behaviors serialise; a body that cannot be decoded
    makes it raise that error, before any behavior is looked at. *)
Theorem Response_as_structure_total (r : Response.t) :
  is_ok (Response.as_structure r)
  = is_ok (Response.body r)
    && is_ok (serialize_list (Response.copy r))
    && is_ok (serialize_list (Response.lookup r))
  /\ (forall e, Response.body r = Err e -> Response.as_structure r = Err e)
  /\ (forall v e, Response.body r = Ok v ->
                  serialize_list (Response.copy r) = Err e ->
                  Response.as_structure r = Err e).
Proof.
  unfold Response.as_structure, Response._is_structure,
    Response._behaviors_structure.
  split; [| split].
  - destruct (Response.body r); cbn [bind is_ok andb]; [| reflexivity].
    rewrite add_serialized_eq.
    destruct (serialize_list (Response.copy r)); cbn [bind is_ok andb];
      [| reflexivity].
    rewrite add_serialized_eq.
    destruct (serialize_list (Response.lookup r)); reflexivity.
  - intros e ->. reflexivity.
  - intros v e -> Hc. cbn [bind].
    rewrite add_serialized_eq, Hc. reflexivity.
Qed.

End ResponseBody.

Lemma Response_parsed_body_witness :
  exists v,
    Response._body (E := Sample.externals)
      {| Response._body := Response.BodyOther (VInt 7);
         Response.status_code := VInt 200; Response.wait := VNone;
         Response.repeat := VNone; Response.headers := VNone;
         Response.mode := Response.TEXT; Response.copy := None;
         Response.decorate := VNone; Response.lookup := None;
         Response.shell_transform := VNone |} = Response.BodyOther v
    /\ Response.body (E := Sample.externals)
         {| Response._body := Response.BodyOther (VInt 7);
            Response.status_code := VInt 200; Response.wait := VNone;
            Response.repeat := VNone; Response.headers := VNone;
            Response.mode := Response.TEXT; Response.copy := None;
            Response.decorate := VNone; Response.lookup := None;
            Response.shell_transform := VNone |} = Ok v.
Proof.
  exact (@Response_parsed_body Sample.externals
           (VDict [("is", VDict [("_mode", VStr "text"); ("body", VInt 7)])])
           _ eq_refl).
Defined.

Lemma Response_as_structure_total_witness :
  Response.as_structure (E := Sample.externals)
    {| Response._body := Response.BodyBytes ["255"%byte];
       Response.status_code := VInt 200; Response.wait := VNone;
       Response.repeat := VNone; Response.headers := VNone;
       Response.mode := Response.TEXT; Response.copy := None;
       Response.decorate := VNone; Response.lookup := None;
       Response.shell_transform := VNone |}
  = Err ValueError.
Proof.
  apply (proj1 (proj2 (@Response_as_structure_total Sample.externals _))).
  reflexivity.
Defined.

(** ** The dispatch on what the module writes, and on what is no dict *)

Section DispatchOfDocuments.
Context {E : Externals}.

(** X6. The dispatch recognises every document the module writes: what a
    [Response] serialises to goes to the [Response] parser, what a [Proxy]
    serialises to (with or without ["_behaviors"]) to the [Proxy] parser, and
    the documents of a [TcpResponse] and of an [InjectionResponse] come back
    as that very object. *)
Theorem dispatch_of_serialised :
  (forall (r : Response.t) (s : value),
      Response.as_structure r = Ok s ->
      BaseResponse.from_structure s
      = fmap BaseResponse.IsResponse (Response.from_structure s))
  /\ (forall t : TcpResponse.t,
        BaseResponse.from_structure (TcpResponse.as_structure t)
        = Ok (BaseResponse.IsTcpResponse t))
  /\ (forall (p : Proxy.t) (s : value),
        Proxy.as_structure p = Ok s ->
        BaseResponse.from_structure s
        = fmap BaseResponse.IsProxy (Proxy.from_structure s))
  /\ (forall i : InjectionResponse.t,
        BaseResponse.from_structure (InjectionResponse.as_structure i)
        = Ok (BaseResponse.IsInjectionResponse i)).
Proof.
  split; [| split; [| split]].
  - intros r s H.
    apply Response_as_structure_inv in H as (i & beh & _ & _ & ->).
    rewrite BaseResponse_from_structure_dict. reflexivity.
  - intros [d]. reflexivity.
  - intros p s H.
    destruct (Proxy_as_structure_inv _ H) as [pgs Hp].
    rewrite (Proxy_as_structure_eq _ Hp) in H. injection H as <-.
    cbv zeta. destruct (truthy (Proxy.wait p));
      rewrite BaseResponse_from_structure_dict; reflexivity.
  - intros [j]. reflexivity.
Qed.

Lemma py_getitem_not_dict (v : value) (k : string) :
  is_dict v = false -> py_getitem v k = Err TypeError.
Proof. destruct v; simpl; intros H; first [reflexivity | discriminate H]. Qed.

Lemma py_in_error (k : string) (v : value) (e : exn) :
  py_in k v = Err e -> e = TypeError.
Proof.
  destruct v; simpl; intros H; first [discriminate H | injection H as <-; reflexivity].
Qed.

(** X7. A structure that is not a dict is never parsed: each parser of the
    module raises [TypeError] on it, and the dispatch raises [TypeError] or,
    when no rule matched, [NotImplementedError]. *)
Theorem not_a_dict_is_rejected (v : value) :
  is_dict v = false ->
  Response.from_structure v = Err TypeError
  /\ TcpResponse.from_structure v = Err TypeError
  /\ Proxy.from_structure v = Err TypeError
  /\ InjectionResponse.from_structure v = Err TypeError
  /\ PredicateGenerator.from_structure v = Err TypeError
  /\ (BaseResponse.from_structure v = Err TypeError
      \/ BaseResponse.from_structure v = Err NotImplementedError).
Proof.
  intros Hv.
  assert (Hr : Response.from_structure v = Err TypeError).
  { unfold Response.from_structure, Response._fields_from_structure.
    change (Response.__init__ Response.defaults) with
      (Ok {| Response._body := Response.BodyOther (VStr "");
             Response.status_code := VInt 200; Response.wait := VNone;
             Response.repeat := VNone; Response.headers := VNone;
             Response.mode := Response.TEXT; Response.copy := None;
             Response.decorate := VNone; Response.lookup := None;
             Response.shell_transform := VNone |}).
    cbn [bind]. rewrite (py_getitem_not_dict v _ Hv). reflexivity. }
  assert (Ht : TcpResponse.from_structure v = Err TypeError).
  { unfold TcpResponse.from_structure. rewrite (py_getitem_not_dict v _ Hv).
    reflexivity. }
  assert (Hp : Proxy.from_structure v = Err TypeError).
  { unfold Proxy.from_structure. rewrite (py_getitem_not_dict v _ Hv).
    reflexivity. }
  assert (Hi : InjectionResponse.from_structure v = Err TypeError).
  { unfold InjectionResponse.from_structure. rewrite (py_getitem_not_dict v _ Hv).
    reflexivity. }
  repeat (split; [assumption |]).
  split.
  { unfold PredicateGenerator.from_structure. rewrite (py_getitem_not_dict v _ Hv).
    reflexivity. }
  unfold BaseResponse.from_structure, py_and.
  rewrite Hr, Ht, Hp, Hi, (py_getitem_not_dict v _ Hv).
  destruct (py_in "is" v) as [[|] | e] eqn:His; cbn [bind fmap];
    [ | | apply py_in_error in His; subst e; left; reflexivity ].
  - destruct (py_in "_behaviors" v) as [[|] | e] eqn:Hb; cbn [bind];
      left; try reflexivity.
    apply py_in_error in Hb; subst e; reflexivity.
  - destruct (py_in "proxy" v) as [[|] | e] eqn:Hpx; cbn [bind];
      [ left; reflexivity | | apply py_in_error in Hpx; subst e; left; reflexivity ].
    destruct (py_in "inject" v) as [[|] | e] eqn:Hj; cbn [bind];
      [ left; reflexivity | right; reflexivity
      | apply py_in_error in Hj; subst e; left; reflexivity ].
Qed.

End DispatchOfDocuments.

Lemma dispatch_of_serialised_witness :
  BaseResponse.from_structure (E := Sample.externals)
    (VDict [("proxy", VDict [("to", VStr "http://origin"); ("mode", VStr "proxyOnce")]);
            ("_behaviors", VDict [("wait", VInt 100)])])
  = fmap BaseResponse.IsProxy
      (Proxy.from_structure
         (VDict [("proxy", VDict [("to", VStr "http://origin");
                                  ("mode", VStr "proxyOnce")]);
                 ("_behaviors", VDict [("wait", VInt 100)])])).
Proof.
  apply (proj1 (proj2 (proj2 (@dispatch_of_serialised Sample.externals)))
           {| Proxy.to := Proxy.ToOther (E := Sample.externals) (VStr "http://origin");
              Proxy.wait := VInt 100; Proxy.inject_headers := VNone;
              Proxy.mode := Proxy.ONCE; Proxy.predicate_generators := Some [] |}).
  reflexivity.
Defined.

Lemma not_a_dict_is_rejected_witness :
  BaseResponse.from_structure (E := Sample.externals)
    (VList [VStr "is"; VStr "_behaviors"]) = Err TypeError
  \/ BaseResponse.from_structure (E := Sample.externals)
       (VList [VStr "is"; VStr "_behaviors"]) = Err NotImplementedError.
Proof.
  apply (@not_a_dict_is_rejected Sample.externals
           (VList [VStr "is"; VStr "_behaviors"])).
  reflexivity.
Defined.

(** ** What the parsers require *)

Section ParserRequirements.
Context {E : Externals}.

(** X8. A parsed [Proxy] always holds its target as a [furl] and a [wait]
    that is unset or truthy: a falsy ["wait"] in the document ([0], [null])
    is dropped. *)
Theorem Proxy_parsed_invariants (structure : value) (p : Proxy.t) :
  Proxy.from_structure structure = Ok p ->
  (exists f, Proxy.to p = Proxy.ToFurl f)
  /\ unset_or_truthy (Proxy.wait p) = true.
Proof.
  unfold Proxy.from_structure; intros H.
  repeat (apply bind_Ok_inv in H as (? & _ & H)).
  match type of H with
  | Ok (if truthy ?w then _ else _) = _ => destruct (truthy w) eqn:Hw
  end; injection H as <-; simpl.
  - split; [eexists; reflexivity |].
    match goal with
    | |- unset_or_truthy ?w = true => destruct w; simpl in *; first [exact Hw | reflexivity]
    end.
  - split; [eexists; reflexivity | reflexivity].
Qed.

(** X9. [Proxy.from_structure] requires ["proxy"], then ["to"], then
    ["mode"]: the first of them that is missing raises its [KeyError], a
    target [furl] refuses raises before the mode is read, and a mode that is
    no tag raises [ValueError]. *)
Theorem Proxy_required_keys (d : dict) :
  (dict_in "proxy" d = false ->
   Proxy.from_structure (VDict d) = Err (KeyError (VStr "proxy")))
  /\ (forall pd : dict,
        dict_get "proxy" d = Some (VDict pd) ->
        dict_in "to" pd = false ->
        Proxy.from_structure (VDict d) = Err (KeyError (VStr "to")))
  /\ (forall (pd : dict) (u : value) (e : exn),
        dict_get "proxy" d = Some (VDict pd) ->
        dict_get "to" pd = Some u -> furl_new u = Err e ->
        Proxy.from_structure (VDict d) = Err e)
  /\ (forall (pd : dict) (u : value) (f : furl),
        dict_get "proxy" d = Some (VDict pd) ->
        dict_get "to" pd = Some u -> furl_new u = Ok f ->
        dict_in "mode" pd = false ->
        Proxy.from_structure (VDict d) = Err (KeyError (VStr "mode")))
  /\ (forall (pd : dict) (u mv : value) (f : furl),
        dict_get "proxy" d = Some (VDict pd) ->
        dict_get "to" pd = Some u -> furl_new u = Ok f ->
        dict_get "mode" pd = Some mv ->
        (forall m, mv <> VStr (Proxy.Mode_value m)) ->
        Proxy.from_structure (VDict d) = Err ValueError).
Proof.
  unfold Proxy.from_structure.
  split; [| split; [| split; [| split]]].
  - intros Hp. apply dict_in_false in Hp. simpl. rewrite Hp. reflexivity.
  - intros pd Hp Hto. apply dict_in_false in Hto.
    rewrite (py_getitem_dict _ _ Hp); cbn [bind]. simpl. rewrite Hto. reflexivity.
  - intros pd u e Hp Hto Hf.
    rewrite (py_getitem_dict _ _ Hp); cbn [bind].
    rewrite (py_getitem_dict _ _ Hto); cbn [bind]. rewrite Hf. reflexivity.
  - intros pd u f Hp Hto Hf Hm. apply dict_in_false in Hm.
    rewrite (py_getitem_dict _ _ Hp); cbn [bind].
    rewrite (py_getitem_dict _ _ Hto); cbn [bind]. rewrite Hf; cbn [bind].
    simpl py_in. cbn [bind]. simpl py_getitem. rewrite Hm. unfold dict_in.
    destruct (dict_get "injectHeaders" pd); reflexivity.
  - intros pd u mv f Hp Hto Hf Hmv Hm.
    rewrite (py_getitem_dict _ _ Hp); cbn [bind].
    rewrite (py_getitem_dict _ _ Hto); cbn [bind]. rewrite Hf; cbn [bind].
    simpl py_in. cbn [bind]. rewrite (py_getitem_dict _ _ Hmv).
    assert (Hbad : Proxy.Mode_of_value mv = Err ValueError).
    { destruct (Proxy.Mode_of_value mv) as [m | e] eqn:H.
      - apply Proxy_Mode_of_value_inv in H. contradiction (Hm m).
      - apply Proxy_Mode_of_value_error in H. subst e; reflexivity. }
    unfold dict_in. simpl py_getitem.
    destruct (dict_get "injectHeaders" pd); cbn [bind]; rewrite Hbad; reflexivity.
Qed.

(** X10. [TcpResponse.from_structure] returns an object exactly when ["is"]
    is a dict that holds ["data"], and the object holds that data; a missing
    ["is"] or ["data"] raises its [KeyError], and an ["is"] that is no dict
    raises [TypeError].  [InjectionResponse.from_structure] returns an object
    exactly when ["inject"] is there, and raises its [KeyError] otherwise. *)
Theorem TcpResponse_and_Injection_parsers (d : dict) :
  (forall t : TcpResponse.t,
      TcpResponse.from_structure (VDict d) = Ok t
      <-> exists inner, dict_get "is" d = Some (VDict inner)
                        /\ dict_get "data" inner = Some (TcpResponse.data t))
  /\ (dict_in "is" d = false ->
      TcpResponse.from_structure (VDict d) = Err (KeyError (VStr "is")))
  /\ (forall inner : dict,
        dict_get "is" d = Some (VDict inner) -> dict_in "data" inner = false ->
        TcpResponse.from_structure (VDict d) = Err (KeyError (VStr "data")))
  /\ (forall v : value,
        dict_get "is" d = Some v -> is_dict v = false ->
        TcpResponse.from_structure (VDict d) = Err TypeError)
  /\ (forall i : InjectionResponse.t,
        InjectionResponse.from_structure (VDict d) = Ok i
        <-> dict_get "inject" d = Some (InjectionResponse.inject i))
  /\ (dict_in "inject" d = false ->
      InjectionResponse.from_structure (VDict d) = Err (KeyError (VStr "inject"))).
Proof.
  unfold TcpResponse.from_structure, InjectionResponse.from_structure.
  split; [| split; [| split; [| split; [| split]]]].
  - intros [x]; simpl; split.
    + destruct (dict_get "is" d) as [v |]; [| discriminate]. cbn [bind].
      destruct v as [| | | | | inner]; try discriminate. simpl.
      destruct (dict_get "data" inner) as [y |] eqn:Hd; [| discriminate].
      intros H; injection H as <-. exists inner; split; [reflexivity | exact Hd].
    + intros (inner & -> & Hd). simpl. rewrite Hd. reflexivity.
  - intros H. apply dict_in_false in H. simpl. rewrite H. reflexivity.
  - intros inner Hi H. apply dict_in_false in H.
    rewrite (py_getitem_dict _ _ Hi). simpl. rewrite H. reflexivity.
  - intros v Hi Hv. rewrite (py_getitem_dict _ _ Hi); cbn [bind].
    rewrite (py_getitem_not_dict v _ Hv). reflexivity.
  - intros [x]; simpl; split.
    + destruct (dict_get "inject" d) as [y |]; [| discriminate].
      intros H; injection H as <-. reflexivity.
    + intros ->. reflexivity.
  - intros H. apply dict_in_false in H. simpl. rewrite H. reflexivity.
Qed.

(** X11. [PredicateGenerator.from_structure] returns a generator exactly
    when ["matches"] is a dict and ["operator"] is absent or names a member;
    a missing ["matches"] raises its [KeyError], and a ["matches"] that is a
    list or a string, which has no [get], raises [AttributeError]. *)
Theorem PredicateGenerator_parser_requirements (d : dict) :
  ((exists pg, PredicateGenerator.from_structure (VDict d) = Ok pg)
   <-> (exists m, dict_get "matches" d = Some (VDict m))
       /\ (dict_get "operator" d = None
           \/ exists name o, dict_get "operator" d = Some name
                             /\ Operator_getitem name = Ok o))
  /\ (dict_in "matches" d = false ->
      PredicateGenerator.from_structure (VDict d) = Err (KeyError (VStr "matches")))
  /\ (forall v : value,
        dict_get "matches" d = Some v -> is_dict v = false ->
        PredicateGenerator.from_structure (VDict d) = Err AttributeError).
Proof.
  split; [| split].
  - split.
    + intros [pg H].
      destruct (PredicateGenerator_from_structure_inv _ H) as [m Hm].
      split; [exists m; exact Hm |].
      rewrite (PredicateGenerator_from_structure_dict _ Hm) in H.
      destruct (dict_get "operator" d) as [name |]; [right | left; reflexivity].
      apply bind_Ok_inv in H as (o & Ho & _).
      exists name, o; split; [reflexivity | exact Ho].
    + intros [[m Hm] Hop].
      rewrite (PredicateGenerator_from_structure_dict _ Hm).
      destruct Hop as [-> | (name & o & -> & Ho)].
      * eexists; reflexivity.
      * rewrite Ho. eexists; reflexivity.
  - intros H. apply dict_in_false in H.
    unfold PredicateGenerator.from_structure. simpl. rewrite H. reflexivity.
  - intros v Hm Hv. unfold PredicateGenerator.from_structure.
    rewrite (py_getitem_dict _ _ Hm); cbn [bind].
    destruct v; first [discriminate Hv | reflexivity].
Qed.

End ParserRequirements.

Lemma Proxy_parsed_invariants_witness :
  (exists f : @furl Sample.externals,
      Proxy.to (E := Sample.externals)
        {| Proxy.to := Proxy.ToFurl (E := Sample.externals) "http://origin";
           Proxy.wait := VNone; Proxy.inject_headers := VNone;
           Proxy.mode := Proxy.ONCE; Proxy.predicate_generators := Some [] |}
      = Proxy.ToFurl f)
  /\ unset_or_truthy
       (Proxy.wait (E := Sample.externals)
          {| Proxy.to := Proxy.ToFurl (E := Sample.externals) "http://origin";
             Proxy.wait := VNone; Proxy.inject_headers := VNone;
             Proxy.mode := Proxy.ONCE; Proxy.predicate_generators := Some [] |})
     = true.
Proof.
  exact (@Proxy_parsed_invariants Sample.externals
           (VDict [("proxy", VDict [("to", VStr "http://origin");
                                    ("mode", VStr "proxyOnce")]);
                   ("_behaviors", VDict [("wait", VInt 0)])])
           _ eq_refl).
Defined.

Lemma Proxy_required_keys_witness :
  Proxy.from_structure (E := Sample.externals)
    (VDict [("proxy", VDict [("to", VInt 80)])]) = Err TypeError
  /\ Proxy.from_structure (E := Sample.externals)
       (VDict [("proxy", VDict [("to", VStr "http://origin")])])
     = Err (KeyError (VStr "mode")).
Proof.
  split.
  - apply (proj1 (proj2 (proj2 (@Proxy_required_keys Sample.externals _)))
             [("to", VInt 80)] (VInt 80)); reflexivity.
  - apply (proj1 (proj2 (proj2 (proj2 (@Proxy_required_keys Sample.externals _))))
             [("to", VStr "http://origin")] (VStr "http://origin") "http://origin");
      reflexivity.
Defined.

Lemma TcpResponse_and_Injection_parsers_witness :
  TcpResponse.from_structure (VDict [("is", VStr "data")]) = Err TypeError
  /\ TcpResponse.from_structure (VDict [("is", VDict [("body", VStr "x")])])
     = Err (KeyError (VStr "data")).
Proof.
  split.
  - apply (proj1 (proj2 (proj2 (proj2 (TcpResponse_and_Injection_parsers _))))
             (VStr "data")); reflexivity.
  - apply (proj1 (proj2 (proj2 (TcpResponse_and_Injection_parsers _)))
             [("body", VStr "x")]); reflexivity.
Defined.

Lemma PredicateGenerator_parser_requirements_witness :
  PredicateGenerator.from_structure (E := Sample.externals)
    (VDict [("matches", VList [VStr "path"])]) = Err AttributeError
  /\ PredicateGenerator.from_structure (E := Sample.externals)
       (VDict [("caseSensitive", VBool true)]) = Err (KeyError (VStr "matches")).
Proof.
  split.
  - apply (proj2 (proj2 (@PredicateGenerator_parser_requirements Sample.externals _))
             (VList [VStr "path"])); reflexivity.
  - apply (proj1 (proj2 (@PredicateGenerator_parser_requirements Sample.externals _)));
      reflexivity.
Defined.

(** ** Documents are stable *)

Section StableDocuments.
Context {E : Externals}.

Lemma add_if_true_falsy_default (d : dict) (k : string) (v default : value) :
  truthy default = false ->
  _add_if_true d k (if truthy v then v else default) = _add_if_true d k v.
Proof.
  intros Hd. unfold _add_if_true.
  destruct (truthy v) eqn:Hv; [rewrite Hv | rewrite Hd]; reflexivity.
Qed.

Lemma PredicateGenerator_reparse (pg : PredicateGenerator.t) :
  PredicateGenerator.from_structure (PredicateGenerator.as_structure pg)
  = Ok (PredicateGenerator_reparsed pg).
Proof.
  destruct pg as [p q o c]. unfold PredicateGenerator.as_structure.
  cbn [PredicateGenerator.path PredicateGenerator.query
       PredicateGenerator.case_sensitive].
  erewrite PredicateGenerator_from_structure_dict by reflexivity.
  rewrite !dict_get_or_add_if_true. unfold dict_get_or. simpl.
  reflexivity.
Qed.

Lemma PredicateGenerator_reparsed_as_structure (pg : PredicateGenerator.t) :
  PredicateGenerator.as_structure (PredicateGenerator_reparsed pg)
  = PredicateGenerator.as_structure pg.
Proof.
  destruct pg as [p q o c].
  unfold PredicateGenerator.as_structure, PredicateGenerator_reparsed.
  cbn [PredicateGenerator.path PredicateGenerator.query
       PredicateGenerator.case_sensitive PredicateGenerator.__init__].
  rewrite !add_if_true_falsy_default by reflexivity. reflexivity.
Qed.

(** X12. The document of a [PredicateGenerator] is stable, whatever the
    generator: it always parses, and what was parsed serialises to the same
    document; only the object may differ from the first one, by a falsy
    [path] or [query] read back as [None] and by the operator read back as
    [EQUALS]. *)
Theorem PredicateGenerator_document_stable (pg : PredicateGenerator.t) :
  exists pg',
    PredicateGenerator.from_structure (PredicateGenerator.as_structure pg) = Ok pg'
    /\ PredicateGenerator.as_structure pg' = PredicateGenerator.as_structure pg
    /\ PredicateGenerator.operator pg' = EQUALS
    /\ PredicateGenerator.case_sensitive pg' = PredicateGenerator.case_sensitive pg
    /\ PredicateGenerator.path pg'
       = (if truthy (PredicateGenerator.path pg)
          then PredicateGenerator.path pg else VNone)
    /\ PredicateGenerator.query pg'
       = (if truthy (PredicateGenerator.query pg)
          then PredicateGenerator.query pg else VNone).
Proof.
  exists (PredicateGenerator_reparsed pg).
  split; [apply PredicateGenerator_reparse |].
  split; [apply PredicateGenerator_reparsed_as_structure |].
  repeat split.
Qed.

Lemma mapM_reparse (pgs : list PredicateGenerator.t) :
  mapM PredicateGenerator.from_structure (map PredicateGenerator.as_structure pgs)
  = Ok (map PredicateGenerator_reparsed pgs).
Proof.
  induction pgs as [| pg pgs IH]; cbn [map mapM]; [reflexivity |].
  rewrite PredicateGenerator_reparse, IH. reflexivity.
Qed.

Lemma map_reparsed_as_structure (pgs : list PredicateGenerator.t) :
  map PredicateGenerator.as_structure (map PredicateGenerator_reparsed pgs)
  = map PredicateGenerator.as_structure pgs.
Proof.
  induction pgs as [| pg pgs IH]; cbn [map]; [reflexivity |].
  rewrite PredicateGenerator_reparsed_as_structure, IH. reflexivity.
Qed.

(** X13. The document of a [Proxy] is stable as soon as [furl] accepts the
    target that was written and renders it unchanged: the document parses,
    and what was parsed serialises to the same document. *)
Theorem Proxy_document_stable (p : Proxy.t) (s : value) (f : furl) :
  Proxy.as_structure p = Ok s ->
  furl_new (Proxy_to_value (Proxy.to p)) = Ok f ->
  VStr (furl_url f) = Proxy_to_value (Proxy.to p) ->
  exists p', Proxy.from_structure s = Ok p' /\ Proxy.as_structure p' = Ok s.
Proof.
  intros Hs Hf Hurl.
  destruct (Proxy_as_structure_inv _ Hs) as [pgs Hp].
  rewrite (Proxy_as_structure_eq _ Hp) in Hs. injection Hs as <-. cbv zeta.
  exists {| Proxy.to := Proxy.ToFurl f;
            Proxy.wait := (if truthy (Proxy.wait p) then Proxy.wait p else VNone);
            Proxy.inject_headers :=
              (if truthy (Proxy.inject_headers p)
               then Proxy.inject_headers p else VNone);
            Proxy.mode := Proxy.mode p;
            Proxy.predicate_generators :=
              Some (map PredicateGenerator_reparsed pgs) |}.
  assert (Hparse : forall px,
             dict_get "predicateGenerators" px
             = (if truthy (VList (map PredicateGenerator.as_structure pgs))
                then Some (VList (map PredicateGenerator.as_structure pgs))
                else None) ->
             exists o, parse_list "predicateGenerators" px = Ok o
                       /\ match o with Some l => l | None => [] end
                          = map PredicateGenerator_reparsed pgs).
  { intros px Hpx. unfold parse_list. rewrite Hpx.
    destruct pgs as [| pg pgs'].
    - exists None; split; reflexivity.
    - exists (Some (map PredicateGenerator_reparsed (pg :: pgs'))).
      split; [| reflexivity].
      change (truthy (VList (map PredicateGenerator.as_structure (pg :: pgs'))))
        with true.
      cbn [py_iter bind].
      change (@from_structure PredicateGenerator.t PredicateGenerator_json)
        with PredicateGenerator.from_structure.
      rewrite mapM_reparse. reflexivity. }
  match goal with
  | |- context [VDict (_add_if_true ?d "predicateGenerators" ?v)] =>
      destruct (Hparse (_add_if_true d "predicateGenerators" v)) as (o & Ho & Hpgs);
      [ rewrite !dict_get_add_if_true; simpl; reflexivity | ]
  end.
  split.
  - destruct (truthy (Proxy.wait p)) eqn:Ht;
      (erewrite Proxy_from_structure_dict;
       [ | reflexivity
         | rewrite !dict_get_add_if_true; simpl; reflexivity
         | exact Hf
         | rewrite !dict_get_add_if_true; simpl; reflexivity
         | apply Proxy_Mode_round_trip
         | reflexivity ]);
      rewrite Ho; cbn [bind]; rewrite Hpgs;
      rewrite !dict_get_or_add_if_true; unfold dict_get_or; simpl;
      rewrite ?Ht; reflexivity.
  - erewrite Proxy_as_structure_eq by reflexivity.
    cbn [Proxy.to Proxy.wait Proxy.inject_headers Proxy.mode]. cbv zeta.
    rewrite map_reparsed_as_structure.
    rewrite add_if_true_falsy_default by reflexivity.
    rewrite Hurl.
    destruct (truthy (Proxy.wait p)) eqn:Ht; rewrite ?Ht; reflexivity.
Qed.

End StableDocuments.

Lemma Proxy_document_stable_witness :
  exists p',
    Proxy.from_structure (E := Sample.externals)
      (VDict [("proxy", VDict [("to", VStr "http://origin");
                               ("mode", VStr "proxyTransparent");
                               ("predicateGenerators",
                                VList [VDict [("caseSensitive", VBool false);
                                              ("matches", VDict [])]])])]) = Ok p'
    /\ Proxy.as_structure p'
       = Ok (VDict [("proxy", VDict [("to", VStr "http://origin");
                                     ("mode", VStr "proxyTransparent");
                                     ("predicateGenerators",
                                      VList [VDict [("caseSensitive", VBool false);
                                                    ("matches", VDict [])]])])]).
Proof.
  apply (@Proxy_document_stable Sample.externals
           {| Proxy.to := Proxy.ToOther (E := Sample.externals) (VStr "http://origin");
              Proxy.wait := VInt 0; Proxy.inject_headers := VDict [];
              Proxy.mode := Proxy.TRANSPARENT;
              Proxy.predicate_generators :=
                Some [PredicateGenerator.__init__ (E := Sample.externals)
                        (VBool false) VNone Sample.OpContains (VBool false)] |}
           _ "http://origin");
    reflexivity.
Defined.

Section StableResponse.
Context {E : Externals}.

Lemma stable_mapM {A : Type} `{JsonSerializable A} (l : list A) (cs : list value) :
  Forall reserialises l ->
  mapM as_structure l = Ok cs ->
  exists l', mapM from_structure cs = Ok l' /\ mapM as_structure l' = Ok cs.
Proof.
  intros Hall. revert cs.
  induction Hall as [| a l (s & a' & Hs & Hp & Hs') _ IH]; simpl; intros cs Hcs.
  - injection Hcs as <-. exists []; split; reflexivity.
  - rewrite Hs in Hcs. cbn [bind] in Hcs.
    apply bind_Ok_inv in Hcs as (cs' & Hcs' & Hcs).
    injection Hcs as <-.
    destruct (IH _ Hcs') as (l' & Hl' & Hsl').
    exists (a' :: l'). simpl. rewrite Hp, Hl', Hs', Hsl'.
    split; reflexivity.
Qed.

(** Behaviors with stable documents: what their key holds parses, to
    behaviors that serialise to the same list. *)
Lemma stable_behaviors_reparse {A : Type} `{JsonSerializable A}
    (xs : option (list A)) (cs : list value) :
  stable_behaviors xs ->
  serialize_list xs = Ok cs ->
  exists xs',
    serialize_list xs' = Ok cs
    /\ forall (key : string) (d : dict),
         dict_get key d = (if truthy (VList cs) then Some (VList cs) else None) ->
         parse_list key d = Ok xs'.
Proof.
  intros Hst Hcs.
  destruct cs as [| c cs'].
  - exists None. split; [reflexivity |].
    intros key d Hd. unfold parse_list. rewrite Hd. reflexivity.
  - destruct xs as [l |]; [| discriminate Hcs].
    simpl in Hst, Hcs.
    destruct (stable_mapM Hst Hcs) as (l' & Hl' & Hsl').
    exists (Some l'). split; [exact Hsl' |].
    intros key d Hd. unfold parse_list. rewrite Hd.
    change (truthy (VList (c :: cs'))) with true.
    cbn [py_iter bind]. rewrite Hl'. reflexivity.
Qed.

(** X14. The document of a [Response] is stable as soon as the documents of
    its behaviors are: it parses, and what was parsed serialises to the same
    document, whatever falsy values the first object held. *)
Theorem Response_document_stable (r : Response.t) (s : value) :
  Response.as_structure r = Ok s ->
  stable_behaviors (Response.copy r) ->
  stable_behaviors (Response.lookup r) ->
  exists r', Response.from_structure s = Ok r' /\ Response.as_structure r' = Ok s.
Proof.
  intros Hs Hc Hl.
  apply Response_as_structure_inv in Hs as (i & beh & Hi & Hbeh & ->).
  destruct (Response_is_structure_inv _ Hi) as [b Hb].
  destruct (Response_behaviors_structure_inv _ Hbeh) as (cs & ls & Hcs & Hls).
  rewrite (Response_is_structure_eq _ Hb) in Hi. injection Hi as <-.
  rewrite (Response_behaviors_structure_eq _ Hcs Hls) in Hbeh. injection Hbeh as <-.
  destruct (stable_behaviors_reparse _ Hc Hcs) as (c' & Hc' & Hcp).
  destruct (stable_behaviors_reparse _ Hl Hls) as (l' & Hl' & Hlp).
  exists {| Response._body :=
              Response.BodyOther (if truthy b then b else VStr "");
            Response.status_code := Response.status_code r;
            Response.wait :=
              (if truthy (Response.wait r) then Response.wait r else VNone);
            Response.repeat :=
              (if truthy (Response.repeat r) then Response.repeat r else VNone);
            Response.headers :=
              (if truthy (Response.headers r) then Response.headers r else VNone);
            Response.mode := Response.mode r;
            Response.copy := c';
            Response.decorate :=
              (if truthy (Response.decorate r) then Response.decorate r else VNone);
            Response.lookup := l';
            Response.shell_transform :=
              (if truthy (Response.shell_transform r)
               then Response.shell_transform r else VNone) |}.
  split.
  - erewrite Response_from_structure_dict;
      [ | reflexivity
        | rewrite !dict_get_add_if_true; simpl; reflexivity
        | apply Response_Mode_round_trip
        | reflexivity ].
    rewrite Hcp by (rewrite !dict_get_add_if_true; simpl; reflexivity).
    rewrite Hlp by (rewrite !dict_get_add_if_true; simpl; reflexivity).
    cbn [bind]. rewrite !dict_get_or_add_if_true. unfold dict_get_or. simpl.
    reflexivity.
  - unfold Response.as_structure.
    erewrite Response_is_structure_eq by reflexivity.
    erewrite Response_behaviors_structure_eq by eassumption.
    cbn [Response.status_code Response.mode Response.headers Response.wait
         Response.repeat Response.decorate Response.shell_transform].
    rewrite !add_if_true_falsy_default by reflexivity.
    reflexivity.
Qed.

End StableResponse.

Lemma Response_document_stable_witness :
  exists r',
    Response.from_structure (E := Sample.externals)
      (VDict [("is", VDict [("statusCode", VInt 0); ("_mode", VStr "text")]);
              ("_behaviors", VDict [("copy", VList [VStr "c"])])]) = Ok r'
    /\ Response.as_structure r'
       = Ok (VDict [("is", VDict [("statusCode", VInt 0); ("_mode", VStr "text")]);
                    ("_behaviors", VDict [("copy", VList [VStr "c"])])]).
Proof.
  apply (@Response_document_stable Sample.externals
           {| Response._body := Response.BodyOther VNone;
              Response.status_code := VInt 0; Response.wait := VInt 0;
              Response.repeat := VNone; Response.headers := VDict [];
              Response.mode := Response.TEXT;
              Response.copy := Some [(VStr "c" : @Copy Sample.externals)];
              Response.decorate := VStr ""; Response.lookup := Some [];
              Response.shell_transform := VNone |}).
  - reflexivity.
  - constructor; [| constructor].
    exists (VStr "c"), (VStr "c" : @Copy Sample.externals).
    repeat split.
  - constructor.
Defined.

(** ** The keys of the documents *)

Section DocumentKeys.
Context {E : Externals}.

(** X15. The documents hold no key but the ones of the format, in a fixed
    order: the ["is"] block of a [Response] has ["statusCode"], ["_mode"]
    and then ["body"], ["headers"] when truthy; its behaviors have, of
    ["wait"], ["repeat"], ["decorate"], ["shellTransform"], ["copy"],
    ["lookup"], the truthy ones; the proxy block of a [Proxy] has ["to"],
    ["mode"] and then ["injectHeaders"], ["predicateGenerators"] when
    truthy, beside a top-level ["_behaviors"] when [wait] is truthy. *)
Theorem document_keys :
  (forall (r : Response.t) (s : value),
      Response.as_structure r = Ok s ->
      exists i beh b,
        s = VDict [("is", VDict i); ("_behaviors", VDict beh)]
        /\ Response.body r = Ok b
        /\ dict_keys i
           = ["statusCode"; "_mode"]
             ++ (if truthy b then ["body"] else [])
             ++ (if truthy (Response.headers r) then ["headers"] else [])
        /\ dict_keys beh
           = (if truthy (Response.wait r) then ["wait"] else [])
             ++ (if truthy (Response.repeat r) then ["repeat"] else [])
             ++ (if truthy (Response.decorate r) then ["decorate"] else [])
             ++ (if truthy (Response.shell_transform r) then ["shellTransform"] else [])
             ++ (if nonempty (Response.copy r) then ["copy"] else [])
             ++ (if nonempty (Response.lookup r) then ["lookup"] else []))
  /\ (forall (p : Proxy.t) (s : value),
        Proxy.as_structure p = Ok s ->
        exists top px,
          s = VDict top
          /\ dict_get "proxy" top = Some (VDict px)
          /\ dict_keys top
             = "proxy" :: (if truthy (Proxy.wait p) then ["_behaviors"] else [])
          /\ dict_keys px
             = ["to"; "mode"]
               ++ (if truthy (Proxy.inject_headers p) then ["injectHeaders"] else [])
               ++ (if nonempty (Proxy.predicate_generators p)
                   then ["predicateGenerators"] else [])).
Proof.
  split.
  - intros r s H.
    apply Response_as_structure_inv in H as (i & beh & Hi & Hbeh & ->).
    destruct (Response_is_structure_inv _ Hi) as [b Hb].
    destruct (Response_behaviors_structure_inv _ Hbeh) as (cs & ls & Hc & Hl).
    rewrite (Response_is_structure_eq _ Hb) in Hi.
    rewrite (Response_behaviors_structure_eq _ Hc Hl) in Hbeh.
    injection Hi as <-. injection Hbeh as <-.
    do 3 eexists. split; [reflexivity |]. split; [exact Hb |].
    rewrite <- (serialize_list_truthy _ Hc), <- (serialize_list_truthy _ Hl).
    unfold _add_if_true.
    split.
    + destruct (truthy b), (truthy (Response.headers r)); reflexivity.
    + destruct (truthy (Response.wait r)), (truthy (Response.repeat r)),
        (truthy (Response.decorate r)), (truthy (Response.shell_transform r)),
        (truthy (VList cs)), (truthy (VList ls)); reflexivity.
  - intros p s H.
    destruct (Proxy_as_structure_inv _ H) as [pgs Hp].
    rewrite (Proxy_as_structure_eq _ Hp) in H. injection H as <-.
    rewrite Hp, <- truthy_map_list with (f := PredicateGenerator.as_structure).
    cbv zeta. unfold _add_if_true.
    destruct (truthy (Proxy.wait p)); do 2 eexists;
      (split; [reflexivity |]); (split; [reflexivity |]);
      (split; [reflexivity |]);
      destruct (truthy (Proxy.inject_headers p)),
        (truthy (VList (map PredicateGenerator.as_structure pgs)));
      reflexivity.
Qed.

(** X16. [Response.from_structure] requires ["is"]: without it the
    [KeyError] of that key is raised; a ["_mode"] that is no tag raises
    [ValueError]; and with a good ["is"] block, a ["_behaviors"] that cannot
    be searched ([null], a number) raises [TypeError]. *)
Theorem Response_required_keys (d : dict) :
  (dict_in "is" d = false ->
   Response.from_structure (VDict d) = Err (KeyError (VStr "is")))
  /\ (forall (inner : dict) (mv : value),
        dict_get "is" d = Some (VDict inner) ->
        dict_get "_mode" inner = Some mv ->
        (forall m, mv <> VStr (Response.Mode_value m)) ->
        Response.from_structure (VDict d) = Err ValueError)
  /\ (forall (inner : dict) (mv v : value) (m : Response.Mode),
        dict_get "is" d = Some (VDict inner) ->
        dict_get "_mode" inner = Some mv ->
        Response.Mode_of_value mv = Ok m ->
        dict_get "_behaviors" d = Some v ->
        is_ok (py_in "wait" v) = false ->
        Response.from_structure (VDict d) = Err TypeError).
Proof.
  unfold Response.from_structure.
  change (Response.__init__ Response.defaults) with
    (Ok {| Response._body := Response.BodyOther (VStr "");
           Response.status_code := VInt 200; Response.wait := VNone;
           Response.repeat := VNone; Response.headers := VNone;
           Response.mode := Response.TEXT; Response.copy := None;
           Response.decorate := VNone; Response.lookup := None;
           Response.shell_transform := VNone |}).
  cbn [bind].
  split; [| split].
  - intros H. apply dict_in_false in H.
    unfold Response._fields_from_structure. simpl. rewrite H. reflexivity.
  - intros inner mv Hi Hmv Hm.
    assert (Hbad : Response.Mode_of_value mv = Err ValueError).
    { destruct (Response.Mode_of_value mv) as [m | e] eqn:H.
      - apply Response_Mode_of_value_inv in H. contradiction (Hm m).
      - apply Response_Mode_of_value_error in H. subst e; reflexivity. }
    unfold Response._fields_from_structure.
    rewrite (py_getitem_dict _ _ Hi); cbn [bind].
    simpl py_in. simpl py_getitem. rewrite Hmv. unfold dict_in.
    destruct (dict_get "body" inner); cbn [bind]; rewrite Hbad; reflexivity.
  - intros inner mv v m Hi Hmv Hm Hb Hv.
    rewrite (Response_fields_from_structure_dict _ _ Hi Hmv Hm); cbn [bind].
    simpl py_get. unfold dict_get_or at 1. rewrite Hb. cbn [bind].
    unfold _set_if_in_dict at 1.
    destruct (py_in "wait" v) as [x | e] eqn:He; [discriminate Hv |].
    apply py_in_error in He. subst e. reflexivity.
Qed.

End DocumentKeys.

Lemma document_keys_witness :
  let r : Response.t (E := Sample.externals) :=
    {| Response._body := Response.BodyOther (VStr "hi");
       Response.status_code := VInt 200; Response.wait := VInt 0;
       Response.repeat := VInt 2; Response.headers := VNone;
       Response.mode := Response.TEXT; Response.copy := None;
       Response.decorate := VNone; Response.lookup := None;
       Response.shell_transform := VNone |} in
  let s :=
    VDict [("is", VDict [("statusCode", VInt 200); ("_mode", VStr "text");
                         ("body", VStr "hi")]);
           ("_behaviors", VDict [("repeat", VInt 2)])] in
  exists i beh b,
    s = VDict [("is", VDict i); ("_behaviors", VDict beh)]
    /\ Response.body r = Ok b
    /\ dict_keys i
       = ["statusCode"; "_mode"]
         ++ (if truthy b then ["body"] else [])
         ++ (if truthy (Response.headers r) then ["headers"] else [])
    /\ dict_keys beh
       = (if truthy (Response.wait r) then ["wait"] else [])
         ++ (if truthy (Response.repeat r) then ["repeat"] else [])
         ++ (if truthy (Response.decorate r) then ["decorate"] else [])
         ++ (if truthy (Response.shell_transform r) then ["shellTransform"] else [])
         ++ (if nonempty (Response.copy r) then ["copy"] else [])
         ++ (if nonempty (Response.lookup r) then ["lookup"] else []).
Proof.
  intros r s.
  exact (proj1 (@document_keys Sample.externals) r s eq_refl).
Defined.

Lemma Response_required_keys_witness :
  Response.from_structure (E := Sample.externals)
    (VDict [("is", VDict [("_mode", VStr "text")]); ("_behaviors", VNone)])
  = Err TypeError
  /\ Response.from_structure (E := Sample.externals)
       (VDict [("is", VDict [("_mode", VStr "Text")])])
     = Err ValueError.
Proof.
  split.
  - apply (proj2 (proj2 (@Response_required_keys Sample.externals _))
             [("_mode", VStr "text")] (VStr "text") VNone Response.TEXT);
      reflexivity.
  - apply (proj1 (proj2 (@Response_required_keys Sample.externals _))
             [("_mode", VStr "Text")] (VStr "Text")); try reflexivity.
    intros m; destruct m; discriminate.
Defined.
